(** * Mexico City growth tool: the data compiler

    A shallow embedding of [mexico_city_data_compiler.py]: the two source
    parsers, the reconciliation join ([compile_data]) and the growth engine
    ([calculate_growth_rates], [calculate_cagr]), with [main] on top.

    Conventions of the embedding.
    - A Python [float] (and a numpy [float64]) is a primitive binary64
      [float]; the table's null is [np.nan], tested with [np.isnan].
    - A Python [str] is a [string] holding one [ascii] per code point. The
      source files are decoded as latin-1, so every character read from them
      is a code point below 256.
    - A [dict] is a [gmap]; a [pd.Series] is a [gmap] from its index labels
      to its values (its labels are taken to be distinct).
    - Python exceptions are the left summand of a sum type. *)

From Stdlib Require Import ZArith Floats String Ascii Lia.
From stdpp Require Import base option list sorting gmap strings pretty.

#[local] Set Warnings "-inexact-float,-clear-no-such-hyp".

Local Open Scope string_scope.
Local Open Scope Z_scope.

(** ** Python and numpy primitives *)

Module Py.

Inductive exn : Set :=
| ValueError | TypeError | IndexError | KeyError | OSError.

(** Sequencing of computations that may raise. *)
#[global] Instance exn_ret : MRet (sum exn) := λ A x, inr x.
#[global] Instance exn_bind : MBind (sum exn) := λ A B f m,
  match m with
  | inl e => inl e
  | inr x => f x
  end.

(** [np.isnan] *)
Definition isnan (x : float) : bool := PrimFloat.is_nan x.

(** [np.nan] *)
Definition nan : float := PrimFloat.nan.

(** [str.replace old new] for a non-empty [old]: every occurrence, found
    from left to right and not overlapping, is replaced. [skip] counts the
    characters of a match that are still to be dropped. Every call of the
    compiler passes a non-empty literal as [old]. *)
Fixpoint replace_from (old new : string) (skip : nat) (s : string) : string :=
  match s with
  | EmptyString => EmptyString
  | String c rest =>
      match skip with
      | S k => replace_from old new k rest
      | O =>
          if String.prefix old s
          then new +:+ replace_from old new (Nat.pred (String.length old)) rest
          else String c (replace_from old new O rest)
      end
  end.

Definition replace (old new s : string) : string :=
  replace_from old new O s.

(** [str.isspace] on one code point below 256. *)
Definition isspace (c : ascii) : bool :=
  let n := N_of_ascii c in
  ((9 <=? n) && (n <=? 13) || (28 <=? n) && (n <=? 32)
   || (n =? 133) || (n =? 160))%N.

Fixpoint lstrip (s : string) : string :=
  match s with
  | EmptyString => EmptyString
  | String c rest => if isspace c then lstrip rest else s
  end.

(** [rstrip] keeps a character when it is not a space or when something
    is kept after it. *)
Fixpoint rstrip (s : string) : string :=
  match s with
  | EmptyString => EmptyString
  | String c rest =>
      match rstrip rest with
      | EmptyString => if isspace c then EmptyString else String c EmptyString
      | kept => String c kept
      end
  end.

(** [str.strip()] *)
Definition strip (s : string) : string := rstrip (lstrip s).

Fixpoint take_token (s : string) : string :=
  match s with
  | EmptyString => EmptyString
  | String c rest => if isspace c then EmptyString else String c (take_token rest)
  end.

(** [s.split()[0]]: the first token, [IndexError] when there is none. *)
Definition first_token (s : string) : exn + string :=
  match lstrip s with
  | EmptyString => inl IndexError
  | t => inr (take_token t)
  end.

(** [needle in s] *)
Fixpoint contains (needle s : string) : bool :=
  String.prefix needle s
  || match s with
     | EmptyString => false
     | String _ rest => contains needle rest
     end.

Definition isdigit (c : ascii) : bool :=
  let n := N_of_ascii c in ((48 <=? n) && (n <=? 57))%N.

Definition digit_value (c : ascii) : Z := Z.of_N (N_of_ascii c) - 48.

(** [str(n)] for an [int]. *)
Definition str_of_int (n : Z) : string :=
  pretty n.

(** Conversion of an [int] below [2^53] in absolute value to [float]
    (exact in that range). *)
Definition float_of_int (n : Z) : float :=
  if n <? 0 then PrimFloat.opp (PrimFloat.of_uint63 (Uint63.of_Z (- n)))
  else PrimFloat.of_uint63 (Uint63.of_Z n).

End Py.

(** ** Data model *)

(** A [pd.Series] of one city: index label (time point) to value. *)
Abbreviation Series := (gmap string float).

(** The per-city maps the parsers return. *)
Abbreviation CityData := (gmap string Series).

(** One row of the DataFrame [compile_data] returns. *)
Record UnifiedRecord := mkUnified {
  city : string;
  time_point : string;
  year : Z;
  quarter : Z;
  employment_rate : float;
  hourly_salary : float;
  population : float;
  housing_index : float;
  monthly_salary : float;
  real_wage : float
}.

(** One row of [yearly_data] in [calculate_growth_rates]: the group key and
    the five aggregated columns, in the order of the [agg] dictionary. *)
Record YearlyAggregate := mkYearly {
  y_city : string;
  y_year : Z;
  y_employment_rate : float;
  y_monthly_salary : float;
  y_real_wage : float;
  y_population : float;
  y_housing_index : float
}.

(** One row of the DataFrame [calculate_growth_rates] returns. *)
Record GrowthRecord := mkGrowth {
  g_city : string;
  g_year : Z;
  avg_employment_rate : float;
  avg_monthly_salary : float;
  avg_real_wage : float;
  avg_population : float;
  avg_housing_index : float;
  population_growth : float;
  real_wage_growth : float;
  nominal_wage_growth : float
}.

(** One row of [yearly_data] in [calculate_cagr]: three aggregated columns. *)
Record CagrYearly := mkCagrYearly {
  cy_city : string;
  cy_year : Z;
  cy_population : float;
  cy_real_wage : float;
  cy_monthly_salary : float
}.

(** One row of the DataFrame [calculate_cagr] returns. *)
Record CAGRRecord := mkCAGR {
  c_city : string;
  start_year : Z;
  end_year : Z;
  years : Z;
  population_cagr : float;
  real_wage_cagr : float;
  nominal_wage_cagr : float
}.

(** ** The reconciliation join: [compile_data] *)

(** The reserved label of the aggregate row, ["Áreas metropolitanas"]
    (its first character is code point 193). *)
Definition AREAS_METROPOLITANAS : string :=
  String "193"%char "reas metropolitanas".

(** [re.match(r'(\d{4})Q(\d)', tp)] with both groups read by [int]: the
    pattern is anchored at the start only, what follows the quarter digit is
    ignored. *)
Definition match_time_point (tp : string) : option (Z * Z) :=
  match tp with
  | String a (String b (String c (String d (String sep (String q _))))) =>
      if Py.isdigit a && Py.isdigit b && Py.isdigit c && Py.isdigit d
         && Ascii.eqb sep "Q" && Py.isdigit q
      then Some (1000 * Py.digit_value a + 100 * Py.digit_value b
                 + 10 * Py.digit_value c + Py.digit_value d,
                 Py.digit_value q)
      else None
  | _ => None
  end.

(** [series.get(tp, np.nan)] *)
Definition series_get (s : Series) (tp : string) : float :=
  default Py.nan (s !! tp).

(** [data.get(city, pd.Series()).get(tp, np.nan)] *)
Definition metric_get (data : CityData) (c tp : string) : float :=
  series_get (default ∅ (data !! c)) tp.

(** Lines 247-254: the housing index of a city at a time point. *)
Definition housing_get (housing_cost_data : CityData) (c tp : string) : float :=
  let city_simple_name := Py.replace "Ciudad de " "" c in
  match housing_cost_data !! city_simple_name with
  | Some housing_series => series_get housing_series tp
  | None =>
      match housing_cost_data !! c with
      | Some housing_series => series_get housing_series tp
      | None => Py.nan
      end
  end.

(** Line 257. *)
Definition monthly_salary_of (salary_value : float) : float :=
  if negb (Py.isnan salary_value) then (salary_value * 160)%float else Py.nan.

(** Line 260. *)
Definition real_wage_of (monthly index_value : float) : float :=
  if negb (Py.isnan monthly) && negb (Py.isnan index_value)
  then (monthly / index_value)%float else Py.nan.

Section Join.

(** The order in which a [for] loop visits a [set] of strings. It follows
    the strings' hashes, which CPython salts anew in every process. *)
Variable set_iter : gset string → list string.

Variables employment_data salary_data population_data : CityData.
Variable housing_cost_data : CityData.
Variable time_points : list string.

(** The body of the inner loop: the row of one city at one time point,
    none when the time point does not match the pattern. *)
Definition compile_row (c tp : string) : option UnifiedRecord :=
  match match_time_point tp with
  | Some (y, q) =>
      let emp_value := metric_get employment_data c tp in
      let salary_value := metric_get salary_data c tp in
      let pop_value := metric_get population_data c tp in
      let index_value := housing_get housing_cost_data c tp in
      let monthly := monthly_salary_of salary_value in
      let real := real_wage_of monthly index_value in
      Some (mkUnified c tp y q emp_value salary_value pop_value
              index_value monthly real)
  | None => None
  end.

(** The rows of one city, in the order of [time_points]. *)
Definition city_rows (c : string) : list UnifiedRecord :=
  if bool_decide (c = AREAS_METROPOLITANAS) || bool_decide (c = "")
  then []
  else omap (compile_row c) time_points.

Definition all_cities : gset string :=
  dom employment_data ∪ dom salary_data ∪ dom population_data.

Definition compile_data : list UnifiedRecord :=
  mbind city_rows (set_iter all_cities).

End Join.

(** ** The growth engine *)

(** The key of [data.groupby(['city', 'year'])]. *)
Definition group_key (r : UnifiedRecord) : string * Z := (city r, year r).

(** The order in which [groupby] sorts its keys: by city, strings compared
    code point by code point, then by year. *)
Definition key_leb (a b : string * Z) : bool :=
  match String.compare a.1 b.1 with
  | Lt => true
  | Eq => a.2 <=? b.2
  | Gt => false
  end.

Definition key_le (a b : string * Z) : Prop := key_leb a b = true.

#[global] Instance key_le_dec : RelDecision key_le :=
  λ a b, decide (key_leb a b = true).

(** The group keys of a table: the distinct keys, sorted. *)
Definition group_keys (data : list UnifiedRecord) : list (string * Z) :=
  merge_sort key_le (remove_dups (group_key <$> data)).

(** The rows of one group, in the order of the table. *)
Definition group_rows (k : string * Z) (data : list UnifiedRecord)
  : list UnifiedRecord :=
  filter (λ r, group_key r = k) data.

(** [Series.unique()]: the distinct values in the order of their first
    appearance. *)
Fixpoint unique_from (seen l : list string) : list string :=
  match l with
  | [] => []
  | x :: rest =>
      if bool_decide (x ∈ seen) then unique_from seen rest
      else x :: unique_from (x :: seen) rest
  end.

Definition unique (l : list string) : list string := unique_from [] l.

(** The order of [sort_values('year')] on the two yearly tables. *)
Definition y_year_le (a b : YearlyAggregate) : Prop := y_year a ≤ y_year b.

#[global] Instance y_year_le_dec : RelDecision y_year_le :=
  λ a b, decide (y_year a ≤ y_year b).

Definition cy_year_le (a b : CagrYearly) : Prop := cy_year a ≤ cy_year b.

#[global] Instance cy_year_le_dec : RelDecision cy_year_le :=
  λ a b, decide (cy_year a ≤ cy_year b).

(** The guarded percentage change of lines 310-312. *)
Definition growth_rate (prev curr : float) : float :=
  if negb (Py.isnan prev) && (0 <? prev)%float
  then ((curr / prev - 1) * 100)%float
  else Py.nan.

(** Line 362. *)
Definition cagr_years (start_year end_year : Z) : Z :=
  if end_year >? start_year then end_year - start_year else 1.

Section Growth.

(** The [mean] aggregation of a pandas group: a function of the group's
    column in row order, nulls included (it skips them). *)
Variable mean : list float → float.

(** [x ** y] on a numpy [float64]. *)
Variable pow : float → float → float.

Definition yearly_row (data : list UnifiedRecord) (k : string * Z)
  : YearlyAggregate :=
  let g := group_rows k data in
  mkYearly k.1 k.2
    (mean (employment_rate <$> g))
    (mean (monthly_salary <$> g))
    (mean (real_wage <$> g))
    (mean (population <$> g))
    (mean (housing_index <$> g)).

(** [data.groupby(['city', 'year']).agg({...}).reset_index()] *)
Definition yearly_data (data : list UnifiedRecord) : list YearlyAggregate :=
  yearly_row data <$> group_keys data.

(** [yearly_data[yearly_data['city'] == city].sort_values('year')] *)
Definition city_yearly (yd : list YearlyAggregate) (c : string)
  : list YearlyAggregate :=
  merge_sort y_year_le (filter (λ r, y_city r = c) yd).

(** Lines 310-325: the record of one pair of rows. *)
Definition growth_record (c : string) (prev_year curr_year : YearlyAggregate)
  : GrowthRecord :=
  mkGrowth c (y_year curr_year)
    (y_employment_rate curr_year)
    (y_monthly_salary curr_year)
    (y_real_wage curr_year)
    (y_population curr_year)
    (y_housing_index curr_year)
    (growth_rate (y_population prev_year) (y_population curr_year))
    (growth_rate (y_real_wage prev_year) (y_real_wage curr_year))
    (growth_rate (y_monthly_salary prev_year) (y_monthly_salary curr_year)).

(** [for i in range(1, len(city_data))] over [iloc[i-1]] and [iloc[i]]. *)
Fixpoint growth_loop (c : string) (city_data : list YearlyAggregate)
  : list GrowthRecord :=
  match city_data with
  | [] => []
  | prev_year :: rest =>
      match rest with
      | [] => []
      | curr_year :: _ =>
          growth_record c prev_year curr_year :: growth_loop c rest
      end
  end.

(** [calculate_growth_rates]. A DataFrame built from no rows has no
    columns, and [groupby] then raises [KeyError]. *)
Definition calculate_growth_rates (data : list UnifiedRecord)
  : Py.exn + list GrowthRecord :=
  match data with
  | [] => inl Py.KeyError
  | _ =>
      let yd := yearly_data data in
      inr (mbind (λ c, growth_loop c (city_yearly yd c))
             (unique (y_city <$> yd)))
  end.

Definition cagr_yearly_row (data : list UnifiedRecord) (k : string * Z)
  : CagrYearly :=
  let g := group_rows k data in
  mkCagrYearly k.1 k.2
    (mean (population <$> g))
    (mean (real_wage <$> g))
    (mean (monthly_salary <$> g)).

Definition cagr_yearly_data (data : list UnifiedRecord) : list CagrYearly :=
  cagr_yearly_row data <$> group_keys data.

(** Line 351: the rows inside the window. *)
Definition filter_window (start_y end_y : Z) (yd : list CagrYearly)
  : list CagrYearly :=
  filter (λ r, start_y ≤ cy_year r ∧ cy_year r ≤ end_y) yd.

(** Line 356. *)
Definition cagr_city_data (filtered_data : list CagrYearly) (c : string)
  : list CagrYearly :=
  merge_sort cy_year_le
    (filter (λ r, cy_city r = c) filtered_data).

(** Lines 364-366, before the conversion to a percentage. *)
Definition cagr_rate (n : Z) (first_v last_v : float) : float :=
  if negb (Py.isnan first_v) && (0 <? first_v)%float
  then (pow (last_v / first_v) (1 / Py.float_of_int n) - 1)%float
  else Py.nan.

(** Lines 358-376: the records of one city, one or none. *)
Definition cagr_city (start_y end_y : Z) (c : string)
  (city_data : list CagrYearly) : list CAGRRecord :=
  if bool_decide (2 ≤ length city_data)%nat then
    match head city_data, last city_data with
    | Some first_year, Some last_year =>
        let n := cagr_years start_y end_y in
        [mkCAGR c start_y end_y n
           (cagr_rate n (cy_population first_year) (cy_population last_year) * 100)%float
           (cagr_rate n (cy_real_wage first_year) (cy_real_wage last_year) * 100)%float
           (cagr_rate n (cy_monthly_salary first_year) (cy_monthly_salary last_year) * 100)%float]
    | _, _ => []
    end
  else [].

(** [calculate_cagr] *)
Definition calculate_cagr (data : list UnifiedRecord) (start_y end_y : Z)
  : Py.exn + list CAGRRecord :=
  match data with
  | [] => inl Py.KeyError
  | _ =>
      let filtered_data := filter_window start_y end_y (cagr_yearly_data data) in
      inr (mbind (λ c, cagr_city start_y end_y c (cagr_city_data filtered_data c))
             (unique (cy_city <$> filtered_data)))
  end.

End Growth.

(** ** The tabular-source parser: [read_excel_html_table] *)

(** What the external readers make of a file: [BeautifulSoup] yields the
    [tr] rows of an HTML document, each with the texts of its [td] cells;
    [pd.read_csv] yields the rows of the housing file. *)
Record HousingRow := mkHousingRow {
  Global : string;
  Anio : Z;
  Trimestre : Z;
  Indice : float
}.

Inductive file_content :=
| HtmlDocument (rows : list (list string))
| CsvTable (rows : list HousingRow).

(** The files of the working directory, by path. *)
Abbreviation file_system := (gmap string file_content).

Definition EMPLOYMENT_RATE_FILE : string := "Employment rate by city.xls".
Definition HOURLY_SALARY_FILE : string := "Mean hourly salary by city.xls".
Definition POPULATION_FILE : string := "Population by city.xls".
Definition HOUSING_COST_FILE : string :=
  "Indice SHF datos abiertos 4_trim_2024(Indice SHF datos abiertos).csv".

(** [pd.Series(values, index=labels)] on distinct labels. With a repeated
    label pandas keeps both values and [Series.get] returns a Series where
    the map below keeps the first value, so the statements that run the
    join on parsed series take the labels to be distinct
    ([labels_distinct] below). *)
Definition make_series (labels : list string) (values : list float) : Series :=
  list_to_map (zip labels values).

(** Lines 52-55. [years[i] and quarters[i]] reads [quarters[i]] only when
    [years[i]] is not empty, so a short quarter row raises only then. *)
Fixpoint build_time_points (ys qs : list string) : Py.exn + list string :=
  match ys with
  | [] => inr []
  | y :: ys' =>
      if bool_decide (y = "") then build_time_points ys' (tail qs)
      else
        match qs with
        | [] => inl Py.IndexError
        | q :: qs' =>
            if bool_decide (q = "") then build_time_points ys' qs'
            else
              tok ← Py.first_token q;
              rest ← build_time_points ys' qs';
              inr ((y +:+ "Q" +:+ tok) :: rest)
        end
  end.

Section Parser.

(** The built-in [float] on a string: its value, or none where it raises
    [ValueError] (on a [str] argument it raises nothing else). *)
Variable py_float : string → option float.

(** [float(s)] with its exception. *)
Definition float_of_str (s : string) : Py.exn + float :=
  match py_float s with
  | Some v => inr v
  | None => inl Py.ValueError
  end.

(** Lines 67-73, on the stripped text of a cell. The handler catches
    [ValueError] and [TypeError]; any other exception would pass. *)
Definition parse_cell (text : string) : Py.exn + float :=
  if bool_decide (text = "No aplica") then inr Py.nan
  else
    match float_of_str (Py.replace "," "." text) with
    | inr v => inr v
    | inl Py.ValueError | inl Py.TypeError => inr Py.nan
    | inl e => inl e
    end.

(** The values of one row, the first exception if a cell raises. *)
Fixpoint parse_cells (cells : list string) : Py.exn + list float :=
  match cells with
  | [] => inr []
  | cell :: rest =>
      v ← parse_cell (Py.strip cell);
      vs ← parse_cells rest;
      inr (v :: vs)
  end.

(** Lines 59-77: the loop over the data rows, threading [city_data]. *)
Fixpoint parse_city_rows (time_points : list string)
  (rows : list (list string)) (city_data : CityData) : Py.exn + CityData :=
  match rows with
  | [] => inr city_data
  | cells :: rest =>
      match cells with
      | first :: (_ :: _) as others =>
          let city_name := Py.strip first in
          if bool_decide (city_name ≠ "")
             && bool_decide (city_name ≠ AREAS_METROPOLITANAS)
          then
            values ← parse_cells others;
            if bool_decide (length values = length time_points)
            then parse_city_rows time_points rest
                   (<[city_name := make_series time_points values]> city_data)
            else parse_city_rows time_points rest city_data
          else parse_city_rows time_points rest city_data
      | _ => parse_city_rows time_points rest city_data
      end
  end.

(** The body of the [try] block (lines 38-80) once the file is read. *)
Definition parse_html_rows (rows : list (list string))
  : Py.exn + (CityData * list string) :=
  match rows !! 6%nat, rows !! 7%nat with
  | Some header_row, Some quarter_row =>
      let ys := Py.strip <$> tail header_row in
      let qs := Py.strip <$> tail quarter_row in
      time_points ← build_time_points ys qs;
      city_data ← parse_city_rows time_points (drop 8 rows) ∅;
      inr (city_data, time_points)
  | _, _ => inl Py.IndexError
  end.

(** The [try] block from [open] on. A file that is not an HTML document
    holds no [tr] element. *)
Definition try_read_html (fs : file_system) (file_path : string)
  : Py.exn + (CityData * list string) :=
  match fs !! file_path with
  | None => inl Py.OSError
  | Some (HtmlDocument rows) => parse_html_rows rows
  | Some (CsvTable _) => parse_html_rows []
  end.

End Parser.

(** City names with characters above code point 127. *)

Definition CIUDAD_DE_MEXICO : string := "Ciudad de M" +:+ String "233"%char "xico".
Definition CIUDAD_DE_LEON : string := "Ciudad de Le" +:+ String "243"%char "n".

(** ** The housing-index parser: [read_housing_cost] *)

(** [data['Global'].str.contains('^ZM', regex=True)]: the pattern is the
    anchor and the two letters. *)
Definition contains_caret_ZM (s : string) : bool := String.prefix "ZM" s.

(** Line 154. *)
Definition zm_data (data : list HousingRow) : list HousingRow :=
  filter (λ r, contains_caret_ZM (Global r) = true) data.

Definition VALLE_MEXICO : string := "Valle M" +:+ String "233"%char "xico".

(** Lines 161-165. *)
Definition housing_city_name (zm : string) : string :=
  let city_name := Py.replace "ZM " "" zm in
  let city_name :=
    if bool_decide (city_name = VALLE_MEXICO) then CIUDAD_DE_MEXICO
    else city_name in
  if bool_decide (city_name = "PueblaTlax") then "Ciudad de Puebla"
  else city_name.

(** Lines 168-176: the series of one identifier. *)
Definition housing_series (zm : string) (zm_rows_all : list HousingRow) : Series :=
  let zm_rows := filter (λ r, Global r = zm) zm_rows_all in
  make_series
    ((λ r, Py.str_of_int (Anio r) +:+ "Q" +:+ Py.str_of_int (Trimestre r)) <$> zm_rows)
    (Indice <$> zm_rows).

Definition housing_of_rows (data : list HousingRow) : CityData :=
  let kept := zm_data data in
  foldl (λ result zm, <[housing_city_name zm := housing_series zm kept]> result)
    ∅ (unique (Global <$> kept)).

Definition try_read_housing (fs : file_system) (file_path : string)
  : Py.exn + CityData :=
  match fs !! file_path with
  | None => inl Py.OSError
  | Some (CsvTable rows) => inr (housing_of_rows rows)
  | Some (HtmlDocument _) => inl Py.KeyError
  end.

(** ** Synthetic sample data: [create_sample_data] *)

Definition sample_cities : list string :=
  [CIUDAD_DE_MEXICO; "Ciudad de Guadalajara"; "Ciudad de Monterrey";
   "Ciudad de Puebla"; CIUDAD_DE_LEON].

(** [[f"{year}Q{quarter}" for year in range(2015, 2021) for quarter in range(1, 5)]] *)
Definition sample_time_points : list string :=
  y ← seqZ 2015 6; q ← seqZ 1 4; [Py.str_of_int y +:+ "Q" +:+ Py.str_of_int q].

Section Pipeline.

(** The state of numpy's global generator, and [np.random.uniform]. *)
Variable rng : Type.
Variable uniform : float → float → rng → float * rng.

(** A list comprehension that draws once per index, in order. *)
Fixpoint draw_values (value : Z → float → float) (low high : float)
  (indices : list Z) (g : rng) : list float * rng :=
  match indices with
  | [] => ([], g)
  | i :: rest =>
      let '(u, g1) := uniform low high g in
      let '(vs, g2) := draw_values value low high rest g1 in
      (value i u :: vs, g2)
  end.

(** A base value with a linear trend of [slope] and one percent of noise. *)
Definition trend_value (base : Z) (slope : float) (n i : Z) (u : float) : float :=
  (Py.float_of_int base
   * (1 + slope * (Py.float_of_int i / Py.float_of_int n))
   * (1 + u))%float.

Definition population_base (c : string) : Z :=
  if bool_decide (c = CIUDAD_DE_MEXICO) then 19000000
  else if bool_decide (c ∈ ["Ciudad de Guadalajara"; "Ciudad de Monterrey"])
       then 4000000
       else 2000000.

(** Lines 112-132: the values of one city. *)
Definition sample_values (file_type c : string) (g : rng) : list float * rng :=
  let n := Z.of_nat (length sample_time_points) in
  let indices := seqZ 0 n in
  if Py.contains "Employment" file_type
  then draw_values (λ _ u, u) 50 65 indices g
  else if Py.contains "salary" file_type
  then draw_values (λ _ u, u) 30 50 indices g
  else if Py.contains "Population" file_type
  then draw_values (trend_value (population_base c) 0.02 n)
         (-0.01) 0.01 indices g
  else draw_values (λ _ u, u) 50 100 indices g.

Fixpoint sample_cities_loop (values : string → rng → list float * rng)
  (cities : list string) (city_data : CityData) (g : rng) : CityData * rng :=
  match cities with
  | [] => (city_data, g)
  | c :: rest =>
      let '(vs, g1) := values c g in
      sample_cities_loop values rest
        (<[c := make_series sample_time_points vs]> city_data) g1
  end.

Definition create_sample_data (file_type : string) (g : rng)
  : CityData * list string * rng :=
  let '(city_data, g1) :=
    sample_cities_loop (sample_values file_type) sample_cities ∅ g in
  (city_data, sample_time_points, g1).

Variable py_float : string → option float.

(** ** The two readers with their fallback *)

(** [read_excel_html_table]: the [try] block, and the handler of lines
    82-86, which catches every exception and returns sample data. *)
Definition read_excel_html_table (fs : file_system) (file_path : string)
  (g : rng) : Py.exn + (CityData * list string * rng) :=
  match try_read_html py_float fs file_path with
  | inr (city_data, time_points) => inr (city_data, time_points, g)
  | inl _ => inr (create_sample_data file_path g)
  end.

Definition MEXICO : string := "M" +:+ String "233"%char "xico".
Definition LEON : string := "Le" +:+ String "243"%char "n".

Definition sample_housing_cities : list string :=
  [MEXICO; "Guadalajara"; "Monterrey"; "Puebla"; LEON].

Definition housing_base (c : string) : Z :=
  if bool_decide (c = MEXICO) then 150
  else if bool_decide (c ∈ ["Guadalajara"; "Monterrey"]) then 120
       else 90.

(** Lines 185-206. *)
Definition sample_housing (g : rng) : CityData * rng :=
  let n := Z.of_nat (length sample_time_points) in
  sample_cities_loop
    (λ c, draw_values (trend_value (housing_base c) 0.05 n)
            (-0.01) 0.01 (seqZ 0 n))
    sample_housing_cities ∅ g.

Definition read_housing_cost (fs : file_system) (file_path : string) (g : rng)
  : Py.exn + (CityData * rng) :=
  match try_read_housing fs file_path with
  | inr result => inr (result, g)
  | inl _ => inr (sample_housing g)
  end.

(** ** The pipeline: [main] *)

Variable set_iter : gset string → list string.
Variable mean : list float → float.
Variable pow : float → float → float.

(** The [try] block of [main] as far as its three tables. *)
Definition main_body (fs : file_system) (g : rng)
  : Py.exn + (list UnifiedRecord * list GrowthRecord * list CAGRRecord) :=
  '(employment_data, time_points, g1) ←
    read_excel_html_table fs EMPLOYMENT_RATE_FILE g;
  '(salary_data, _, g2) ← read_excel_html_table fs HOURLY_SALARY_FILE g1;
  '(population_data, _, g3) ← read_excel_html_table fs POPULATION_FILE g2;
  '(housing_cost_data, _) ← read_housing_cost fs HOUSING_COST_FILE g3;
  let city_data :=
    compile_data set_iter employment_data salary_data population_data
      housing_cost_data time_points in
  yearly_growth ← calculate_growth_rates mean city_data;
  cagr_data ← calculate_cagr mean pow city_data 2015 2020;
  inr (city_data, yearly_growth, cagr_data).

(** [main]: the tables, or [None] where the handler of line 431 catches
    an exception. *)
Definition main (fs : file_system) (g : rng)
  : option (list UnifiedRecord * list GrowthRecord * list CAGRRecord) :=
  match main_body fs g with
  | inr tables => Some tables
  | inl _ => None
  end.

End Pipeline.

(** ** Instances of the library functions, for running the model

    The theorems below hold for every [float] reader, [mean], power
    function, generator and set order. These instances make the
    definitions run on concrete tables. *)

Module Instances.

Fixpoint read_digits (s : string) (acc : Z) (n : nat) : Z * nat * string :=
  match s with
  | EmptyString => (acc, n, EmptyString)
  | String c rest =>
      if Py.isdigit c then read_digits rest (10 * acc + Py.digit_value c) (S n)
      else (acc, n, s)
  end.

(** [float] on a plain decimal numeral: an optional sign, digits, and an
    optional point with digits; none on any other text. The quotient is
    the correctly rounded value while the digits stay below [2^53] and
    the fraction has at most 22 of them. *)
Definition decimal_float (s : string) : option float :=
  let '(negative, body) :=
    match s with
    | String "-" rest => (true, rest)
    | String "+" rest => (false, rest)
    | _ => (false, s)
    end in
  let '(int_part, n1, rest) := read_digits body 0 0 in
  let '(mantissa, n2, rest') :=
    match rest with
    | String "." frac => read_digits frac int_part 0
    | _ => (int_part, 0%nat, rest)
    end in
  if bool_decide (rest' = "") && negb (Nat.eqb (n1 + n2) 0)
  then
    let v := (Py.float_of_int mantissa / Py.float_of_int (10 ^ Z.of_nat n2))%float in
    Some (if negative then (- v)%float else v)
  else None.

(** The mean of the values that are not null, null when there are none. *)
Definition skipna_mean (l : list float) : float :=
  let vs := List.filter (λ x, negb (Py.isnan x)) l in
  match vs with
  | [] => Py.nan
  | _ => (foldl PrimFloat.add 0%float vs / Py.float_of_int (Z.of_nat (length vs)))%float
  end.

(** The power function at the exponents [1] and [1/2]. *)
Definition sqrt_pow (x y : float) : float :=
  if (y =? 1)%float then x
  else if (y =? 0.5)%float then PrimFloat.sqrt x
  else Py.nan.

(** A generator that hands out the midpoint of the interval. *)
Definition midpoint (low high : float) (g : unit) : float * unit :=
  ((low + (high - low) * 0.5)%float, g).

End Instances.

(** * The claims' vocabulary and example data *)

(** The claims' formulas, in the specification's words. *)



(** The first key as the specification words it: the prefix taken off the
    front of the name, and the name itself when it does not start with it. *)
Definition strip_prefix (p s : string) : string :=
  if String.prefix p s
  then String.substring (String.length p) (String.length s - String.length p) s
  else s.

(** A source is readable when its [try] block ends without an exception,
    so that no sample data stands in for it. *)
Definition readable {A} (result : Py.exn + A) : Prop := ∃ v, result = inr v.

Definition sources_readable (py_float : string → option float)
  (fs : file_system) : Prop :=
  readable (try_read_html py_float fs EMPLOYMENT_RATE_FILE)
  ∧ readable (try_read_html py_float fs HOURLY_SALARY_FILE)
  ∧ readable (try_read_html py_float fs POPULATION_FILE)
  ∧ readable (try_read_housing fs HOUSING_COST_FILE).

(** The time points of a parsed table are distinct. *)
Definition distinct_labels (result : Py.exn + (CityData * list string))
  : Prop :=
  ∀ city_data time_points,
    result = inr (city_data, time_points) → NoDup time_points.

(** No source gives a label twice to one series: the time points of each
    tabular file are distinct, and so are the labels of the rows of each
    identifier of the housing file. On such sources every [pd.Series] has
    a unique index, [Series.get] returns a number, and [make_series] is
    the series the program builds. *)
Definition labels_distinct (py_float : string → option float)
  (fs : file_system) : Prop :=
  distinct_labels (try_read_html py_float fs EMPLOYMENT_RATE_FILE)
  ∧ distinct_labels (try_read_html py_float fs HOURLY_SALARY_FILE)
  ∧ distinct_labels (try_read_html py_float fs POPULATION_FILE)
  ∧ ∀ rows zm,
      fs !! HOUSING_COST_FILE = Some (CsvTable rows) →
      NoDup ((λ r, Py.str_of_int (Anio r) +:+ "Q"
                   +:+ Py.str_of_int (Trimestre r))
             <$> filter (λ r, Global r = zm) (zm_data rows)).

(** ** Tables used to run the join *)

Module JoinExample.

Definition leon : string := "Ciudad de Leon".

Definition employment : CityData :=
  {[ leon := ({[ "2015Q1" := 60.5%float ]} : Series);
     "Tepic" := ({[ "2015Q1" := 58%float; "2015Q2" := 59%float ]} : Series) ]}.

Definition salary : CityData :=
  {[ leon := ({[ "2015Q1" := 42%float; "2015Q2" := 0%float;
                "2015Q3" := 50%float ]} : Series) ]}.

Definition housing : CityData :=
  {[ "Leon" := ({[ "2015Q1" := 120%float; "2015Q2" := 0%float;
                   "2015Q3" := 0%float ]} : Series) ]}.

Definition quarters : list string := ["2015Q1"; "2015Q2"; "2015Q3"].

Definition table : list UnifiedRecord :=
  compile_data elements employment salary ∅ housing quarters.

Definition leon_q1 : UnifiedRecord :=
  mkUnified leon "2015Q1" 2015 1 60.5 42 Py.nan 120 6720 56.
Definition leon_q2 : UnifiedRecord :=
  mkUnified leon "2015Q2" 2015 2 Py.nan 0 Py.nan 0 0 Py.nan.
Definition leon_q3 : UnifiedRecord :=
  mkUnified leon "2015Q3" 2015 3 Py.nan 50 Py.nan 0 8000 PrimFloat.infinity.
Definition tepic_q1 : UnifiedRecord :=
  mkUnified "Tepic" "2015Q1" 2015 1 58 Py.nan Py.nan Py.nan Py.nan Py.nan.

End JoinExample.

(** ** Tables used to try the two housing keys *)

Module HousingKeyExample.

Definition name : string := "Gran Ciudad de Oro".

Definition employment : CityData :=
  {[ name := ({[ "2015Q1" := 61%float ]} : Series) ]}.

Definition housing : CityData :=
  {[ "Gran Oro" := ({[ "2015Q1" := 100%float ]} : Series) ]}.

Definition row : UnifiedRecord :=
  mkUnified name "2015Q1" 2015 1 61 Py.nan Py.nan 100 Py.nan Py.nan.

Definition table : list UnifiedRecord :=
  compile_data elements employment ∅ ∅ housing ["2015Q1"].

(** The housing parser files Puebla under its full name, so that city is
    found under the second key. *)
Definition puebla_employment : CityData :=
  {[ "Ciudad de Puebla" := ({[ "2015Q1" := 57%float ]} : Series) ]}.

Definition puebla_housing : CityData :=
  {[ "Ciudad de Puebla" := ({[ "2015Q1" := 90%float ]} : Series) ]}.

Definition puebla_row : UnifiedRecord :=
  mkUnified "Ciudad de Puebla" "2015Q1" 2015 1 57 Py.nan Py.nan 90 Py.nan Py.nan.

Definition puebla_table : list UnifiedRecord :=
  compile_data elements puebla_employment ∅ ∅ puebla_housing ["2015Q1"].

End HousingKeyExample.

(** ** Rows of a housing file *)

Module HousingExample.

Definition rows : list HousingRow :=
  [mkHousingRow "ZM Monterrey" 2015 1 101.5;
   mkHousingRow "ZMVM" 2015 1 99;
   mkHousingRow "Nacional" 2015 1 100;
   mkHousingRow "ZM Monterrey" 2015 2 102].

End HousingExample.

(** ** Tables used to run the growth engine *)

Module GrowthExample.

Definition population_data : CityData :=
  {[ "Monterrey" :=
       ({[ "2015Q1" := 4000000%float; "2015Q2" := 4000000%float;
           "2016Q1" := 4100000%float; "2017Q1" := 4200000%float ]} : Series);
     "Tepic" := ({[ "2016Q1" := 400000%float ]} : Series);
     "Xalapa" :=
       ({[ "2016Q1" := 0%float; "2017Q1" := 700000%float ]} : Series) ]}.

Definition quarters : list string :=
  ["2015Q1"; "2015Q2"; "2016Q1"; "2017Q1"].

(** Three years for every city; a mean is null where a city has no value. *)
Definition table : list UnifiedRecord :=
  compile_data elements ∅ ∅ population_data ∅ quarters.


(** The growth table of [table]: two records for each of the three
    cities, for 2016 and 2017. *)
Definition growth : list GrowthRecord :=
  Eval vm_compute in
    match calculate_growth_rates Instances.skipna_mean table with
    | inr records => records
    | inl _ => []
    end.

End GrowthExample.

(** ** Source files used to run the pipeline *)

Module PipelineExample.

(** Six rows before the two header rows, as in the source layout. *)
Definition preamble : list (list string) := replicate 6 [].

Definition header : list (list string) :=
  [["Periodo"; "2015"; "2015"; "2016"; "2016"];
   [""; "1 trim"; "2 trim"; "1 trim"; "2 trim"]].

Definition employment_doc : list (list string) :=
  preamble ++ header
  ++ [[AREAS_METROPOLITANAS; ""; ""; ""; ""];
      ["Ciudad de Monterrey"; "60,1"; "60,5"; "61,0"; "61,2"];
      ["Tepic"; "55,0"; "No aplica"; "56,1"; "56,3"]].

Definition salary_doc : list (list string) :=
  preamble ++ header
  ++ [["Ciudad de Monterrey"; "50,0"; "50,5"; "52,0"; "52,5"];
      ["Tepic"; "40,0"; "40,0"; "41,0"; "n.d."]].

Definition population_doc : list (list string) :=
  preamble ++ header
  ++ [["Ciudad de Monterrey"; "4000000"; "4000000"; "4100000"; "4100000"];
      ["Tepic"; "400000"; "400000"; "410000"; "410000"]].

Definition housing_rows : list HousingRow :=
  [mkHousingRow "ZM Monterrey" 2015 1 100;
   mkHousingRow "ZM Monterrey" 2015 2 101;
   mkHousingRow "ZM Monterrey" 2016 1 104;
   mkHousingRow "ZM Monterrey" 2016 2 105;
   mkHousingRow "Nacional" 2015 1 100].

Definition files : file_system :=
  {[ EMPLOYMENT_RATE_FILE := HtmlDocument employment_doc;
     HOURLY_SALARY_FILE := HtmlDocument salary_doc;
     POPULATION_FILE := HtmlDocument population_doc;
     HOUSING_COST_FILE := CsvTable housing_rows ]}.

(** Two set orders: the order of [elements], and its reverse. *)
Definition forward (s : gset string) : list string := elements s.
Definition backward (s : gset string) : list string := reverse (elements s).

Definition run (set_iter : gset string → list string)
  : option (list UnifiedRecord * list GrowthRecord * list CAGRRecord) :=
  main unit Instances.midpoint Instances.decimal_float set_iter
    Instances.skipna_mean Instances.sqrt_pow files tt.

End PipelineExample.

(** ** Source files where the salary table ends before the others *)

Module SalaryGapExample.

Definition salary_doc : list (list string) :=
  PipelineExample.preamble
  ++ [["Periodo"; "2015"]; [""; "1 trim"]]
  ++ [["Ciudad de Monterrey"; "50,0"]; ["Tepic"; "40,0"]].

Definition files : file_system :=
  <[ HOURLY_SALARY_FILE := HtmlDocument salary_doc ]> PipelineExample.files.

End SalaryGapExample.

(** * Properties of the reconciliation join *)

Section JoinFacts.

Variable set_iter : gset string → list string.
Variables employment_data salary_data population_data : CityData.
Variable housing_cost_data : CityData.
Variable time_points : list string.

Abbreviation the_table :=
  (compile_data set_iter employment_data salary_data population_data
     housing_cost_data time_points).
Abbreviation the_row :=
  (compile_row employment_data salary_data population_data housing_cost_data).

(** A row of the table is the row of some visited city at some time point
    of the canonical sequence. *)
Lemma elem_of_compile_data (r : UnifiedRecord) :
  r ∈ the_table ↔
  ∃ c tp,
    c ∈ set_iter (all_cities employment_data salary_data population_data)
    ∧ c ≠ AREAS_METROPOLITANAS ∧ c ≠ "" ∧ tp ∈ time_points
    ∧ the_row c tp = Some r.
Proof.
  unfold compile_data. rewrite list_elem_of_bind. split.
  - intros (c & Hr & Hc). exists c. unfold city_rows in Hr.
    destruct (bool_decide (c = AREAS_METROPOLITANAS)) eqn:Ha;
      [simpl in Hr; by apply elem_of_nil in Hr|].
    destruct (bool_decide (c = "")) eqn:He;
      [simpl in Hr; by apply elem_of_nil in Hr|].
    simpl in Hr. apply list_elem_of_omap in Hr as (tp & Htp & Hrow).
    exists tp. apply bool_decide_eq_false in Ha, He. done.
  - intros (c & tp & Hc & Ha & He & Htp & Hrow). exists c. split; [|done].
    unfold city_rows.
    rewrite (bool_decide_eq_false_2 _ Ha), (bool_decide_eq_false_2 _ He).
    simpl. apply list_elem_of_omap. by exists tp.
Qed.

(** What the inner loop stores in a row. *)
Lemma compile_row_fields (c tp : string) (r : UnifiedRecord) :
  the_row c tp = Some r →
  city r = c ∧ time_point r = tp
  ∧ match_time_point tp = Some (year r, quarter r)
  ∧ employment_rate r = metric_get employment_data c tp
  ∧ hourly_salary r = metric_get salary_data c tp
  ∧ population r = metric_get population_data c tp
  ∧ housing_index r = housing_get housing_cost_data c tp
  ∧ monthly_salary r = monthly_salary_of (hourly_salary r)
  ∧ real_wage r = real_wage_of (monthly_salary r) (housing_index r).
Proof.
  unfold compile_row. destruct (match_time_point tp) as [[y q]|]; [|done].
  intros [= <-]. simpl. done.
Qed.

Lemma table_row_fields (r : UnifiedRecord) :
  r ∈ the_table →
  housing_index r = housing_get housing_cost_data (city r) (time_point r)
  ∧ monthly_salary r = monthly_salary_of (hourly_salary r)
  ∧ real_wage r = real_wage_of (monthly_salary r) (housing_index r).
Proof.
  rewrite elem_of_compile_data. intros (c & tp & _ & _ & _ & _ & Hrow).
  apply compile_row_fields in Hrow as (-> & -> & _ & _ & _ & _ & ? & ? & ?).
  done.
Qed.

End JoinFacts.

(** The join on the example tables. *)
Lemma join_example_rows :
  JoinExample.table
  = [JoinExample.leon_q1; JoinExample.leon_q2; JoinExample.leon_q3;
     JoinExample.tepic_q1;
     mkUnified "Tepic" "2015Q2" 2015 2 59 Py.nan Py.nan Py.nan Py.nan Py.nan;
     mkUnified "Tepic" "2015Q3" 2015 3 Py.nan Py.nan Py.nan Py.nan Py.nan Py.nan].
Proof. vm_compute. reflexivity. Qed.

(** * Facts on binary64 division used below *)

Section FloatFacts.

Local Open Scope float_scope.

Lemma SFcompare_refl_finite (s : bool) (m : positive) (e : Z) :
  SFcompare (S754_finite s m e) (S754_finite s m e) = Some Eq.
Proof.
  assert (He : (e ?= e)%Z = Eq) by apply Z.compare_refl.
  assert (Hm : PosDef.Pos.compare_cont Eq m m = Eq)
    by apply Pos.compare_cont_refl.
  simpl. destruct s; rewrite He, Hm; reflexivity.
Qed.

Lemma is_nan_Prim2SF (x : float) :
  is_nan x = true ↔ Prim2SF x = S754_nan.
Proof.
  unfold is_nan. rewrite FloatAxioms.eqb_spec. unfold SFeqb.
  destruct (Prim2SF x) as [s| s | |s m e] eqn:E.
  - by destruct s.
  - by destruct s.
  - done.
  - rewrite SFcompare_refl_finite. done.
Qed.

Lemma is_zero_Prim2SF (x : float) :
  is_zero x = true ↔ ∃ s, Prim2SF x = S754_zero s.
Proof.
  unfold is_zero. rewrite FloatAxioms.eqb_spec. unfold SFeqb.
  change (Prim2SF PrimFloat.zero) with (S754_zero false).
  destruct (Prim2SF x) as [s| s | |s m e] eqn:E; simpl.
  - split; [by exists s|done].
  - destruct s; (split; [done|by intros [? ?]]).
  - split; [done|by intros [? ?]].
  - destruct s; (split; [done|by intros [? ?]]).
Qed.

Lemma is_infinity_Prim2SF (x : float) (s : bool) :
  Prim2SF x = S754_infinity s → is_infinity x = true.
Proof.
  intros E. unfold is_infinity. rewrite FloatAxioms.eqb_spec, FloatAxioms.abs_spec, E.
  change (Prim2SF PrimFloat.infinity) with (S754_infinity false). reflexivity.
Qed.

(** A quotient by zero is a NaN when the dividend is zero, and infinite
    for every other dividend that is not a NaN. *)
Lemma div_by_zero (x y : float) :
  is_nan x = false → is_zero y = true →
  (is_zero x = true → is_nan (x / y) = true)
  ∧ (is_zero x = false → is_infinity (x / y) = true).
Proof.
  intros Hx Hy. apply is_zero_Prim2SF in Hy as [sy Ey].
  assert (Hd := FloatAxioms.div_spec x y). rewrite Ey in Hd. unfold SF64div in Hd.
  destruct (Prim2SF x) as [sx| sx | |sx mx ex] eqn:Ex; simpl in Hd.
  - split; [intros _; by apply is_nan_Prim2SF|].
    intros Hz. assert (is_zero x = true) by (apply is_zero_Prim2SF; eauto).
    congruence.
  - split; [|intros _; by eapply is_infinity_Prim2SF].
    intros Hz. apply is_zero_Prim2SF in Hz as [? ?]. congruence.
  - assert (is_nan x = true) by by apply is_nan_Prim2SF. congruence.
  - split; [|intros _; by eapply is_infinity_Prim2SF].
    intros Hz. apply is_zero_Prim2SF in Hz as [? ?]. congruence.
Qed.

End FloatFacts.

(** * The derived columns of the join *)

Section JoinClaims.

Variable set_iter : gset string → list string.
Variables employment_data salary_data population_data : CityData.
Variable housing_cost_data : CityData.
Variable time_points : list string.

Abbreviation joined :=
  (compile_data set_iter employment_data salary_data population_data
     housing_cost_data time_points).

(** Where both operands are present the row holds their quotient. *)
Lemma real_wage_quotient (r : UnifiedRecord) :
  r ∈ joined →
  Py.isnan (housing_index r) = false →
  Py.isnan (monthly_salary r) = false →
  real_wage r = (monthly_salary r / housing_index r)%float.
Proof.
  intros Hr. apply table_row_fields in Hr as (_ & _ & ->).
  unfold real_wage_of. intros -> ->. reflexivity.
Qed.

(** C3. In every row of the joined table, [monthly_salary] is
    [hourly_salary * 160] when [hourly_salary] is not null, and null when
    it is. *)
Theorem monthly_salary_is_hourly_times_160 (r : UnifiedRecord) :
  r ∈ joined →
  (Py.isnan (hourly_salary r) = false →
   monthly_salary r = (hourly_salary r * 160)%float)
  ∧ (Py.isnan (hourly_salary r) = true → Py.isnan (monthly_salary r) = true).
Proof.
  intros Hr. apply table_row_fields in Hr as (_ & -> & _).
  unfold monthly_salary_of. split; intros ->; reflexivity.
Qed.

(** C4. In every row of the joined table, [real_wage] is null whenever
    [housing_index] or [monthly_salary] is null, and is
    [monthly_salary / housing_index] otherwise. *)
Theorem real_wage_is_monthly_over_index (r : UnifiedRecord) :
  r ∈ joined →
  (Py.isnan (housing_index r) = true ∨ Py.isnan (monthly_salary r) = true →
   Py.isnan (real_wage r) = true)
  ∧ (Py.isnan (housing_index r) = false →
     Py.isnan (monthly_salary r) = false →
     real_wage r = (monthly_salary r / housing_index r)%float).
Proof.
  intros Hr. split; [|by apply real_wage_quotient].
  apply table_row_fields in Hr as (_ & _ & ->). unfold real_wage_of.
  intros [-> | ->]; [rewrite andb_false_r|]; reflexivity.
Qed.

(** C10, as amended. In a row whose [monthly_salary] is not null and whose
    [housing_index] is zero, [real_wage] is the quotient
    [monthly_salary / housing_index], taken with no test for zero: it is
    infinite when [monthly_salary] is not zero, and a NaN, the null of the
    table, when [monthly_salary] is zero. *)
Theorem real_wage_over_zero_index (r : UnifiedRecord) :
  r ∈ joined →
  Py.isnan (monthly_salary r) = false →
  PrimFloat.is_zero (housing_index r) = true →
  real_wage r = (monthly_salary r / housing_index r)%float
  ∧ (PrimFloat.is_zero (monthly_salary r) = false →
     PrimFloat.is_infinity (real_wage r) = true)
  ∧ (PrimFloat.is_zero (monthly_salary r) = true →
     Py.isnan (real_wage r) = true).
Proof.
  intros Hr Hm Hz.
  assert (Hi : Py.isnan (housing_index r) = false).
  { destruct (Py.isnan (housing_index r)) eqn:E; [|done].
    apply is_nan_Prim2SF in E. apply is_zero_Prim2SF in Hz as [s Hz].
    congruence. }
  rewrite (real_wage_quotient r Hr Hi Hm).
  destruct (div_by_zero (monthly_salary r) (housing_index r) Hm Hz) as [H0 H1].
  done.
Qed.

(** C7, as amended. The housing index of a row is looked up under two keys
    in order: the city name with every occurrence of ["Ciudad de "] removed,
    then the city name itself. The first key present in the housing map
    gives the series that is read at the row's time point; with neither
    present the housing index is null. *)
Theorem housing_index_two_keys (r : UnifiedRecord) :
  r ∈ joined →
  let key1 := Py.replace "Ciudad de " "" (city r) in
  (∀ s : Series, housing_cost_data !! key1 = Some s →
     housing_index r = series_get s (time_point r))
  ∧ (housing_cost_data !! key1 = None →
     ∀ s : Series, housing_cost_data !! city r = Some s →
       housing_index r = series_get s (time_point r))
  ∧ (housing_cost_data !! key1 = None →
     housing_cost_data !! city r = None →
     Py.isnan (housing_index r) = true).
Proof.
  intros Hr key1. apply table_row_fields in Hr as (-> & _ & _).
  unfold housing_get. fold key1. repeat split.
  - intros s ->. reflexivity.
  - intros -> s ->. reflexivity.
  - intros -> ->. reflexivity.
Qed.

End JoinClaims.

Lemma monthly_salary_is_hourly_times_160_witness :
  JoinExample.leon_q1 ∈ JoinExample.table
  ∧ JoinExample.tepic_q1 ∈ JoinExample.table
  ∧ monthly_salary JoinExample.leon_q1
    = (hourly_salary JoinExample.leon_q1 * 160)%float
  ∧ Py.isnan (monthly_salary JoinExample.tepic_q1) = true.
Proof.
  assert (H1 : JoinExample.leon_q1 ∈ JoinExample.table)
    by (vm_compute; left).
  assert (H2 : JoinExample.tepic_q1 ∈ JoinExample.table)
    by (vm_compute; do 3 right; left).
  refine (conj H1 (conj H2 (conj _ _))).
  - apply (monthly_salary_is_hourly_times_160 _ _ _ _ _ _ _ H1). reflexivity.
  - apply (monthly_salary_is_hourly_times_160 _ _ _ _ _ _ _ H2). reflexivity.
Defined.

Lemma real_wage_is_monthly_over_index_witness :
  JoinExample.leon_q1 ∈ JoinExample.table
  ∧ JoinExample.tepic_q1 ∈ JoinExample.table
  ∧ real_wage JoinExample.leon_q1 = (6720 / 120)%float
  ∧ Py.isnan (real_wage JoinExample.tepic_q1) = true.
Proof.
  assert (H1 : JoinExample.leon_q1 ∈ JoinExample.table)
    by (vm_compute; left).
  assert (H2 : JoinExample.tepic_q1 ∈ JoinExample.table)
    by (vm_compute; do 3 right; left).
  refine (conj H1 (conj H2 (conj _ _))).
  - apply (real_wage_is_monthly_over_index _ _ _ _ _ _ _ H1); reflexivity.
  - apply (real_wage_is_monthly_over_index _ _ _ _ _ _ _ H2). left. reflexivity.
Defined.

(** C10 as stated fails: with a zero salary over a zero index the quotient
    is a NaN, which is the null of the table. *)
Lemma real_wage_zero_over_zero_is_null :
  ¬ (∀ (set_iter : gset string → list string)
       (employment_data salary_data population_data housing_cost_data : CityData)
       (time_points : list string) (r : UnifiedRecord),
       r ∈ compile_data set_iter employment_data salary_data population_data
             housing_cost_data time_points →
       Py.isnan (monthly_salary r) = false →
       Py.isnan (housing_index r) = false →
       PrimFloat.is_zero (housing_index r) = true →
       Py.isnan (real_wage r) = false).
Proof.
  intros H.
  specialize (H elements JoinExample.employment JoinExample.salary ∅
                JoinExample.housing JoinExample.quarters JoinExample.leon_q2).
  assert (Hin : JoinExample.leon_q2 ∈ JoinExample.table)
    by (vm_compute; right; left).
  specialize (H Hin eq_refl eq_refl eq_refl). discriminate H.
Qed.

Lemma real_wage_over_zero_index_witness :
  JoinExample.leon_q3 ∈ JoinExample.table
  ∧ Py.isnan (monthly_salary JoinExample.leon_q3) = false
  ∧ PrimFloat.is_zero (housing_index JoinExample.leon_q3) = true
  ∧ real_wage JoinExample.leon_q3 = (8000 / 0)%float
  ∧ PrimFloat.is_infinity (real_wage JoinExample.leon_q3) = true.
Proof.
  assert (Hin : JoinExample.leon_q3 ∈ JoinExample.table)
    by (vm_compute; do 2 right; left).
  refine (conj Hin (conj eq_refl (conj eq_refl (conj _ _)))).
  - apply (real_wage_over_zero_index _ _ _ _ _ _ _ Hin); reflexivity.
  - apply (real_wage_over_zero_index _ _ _ _ _ _ _ Hin); reflexivity.
Defined.

(** C7 as stated fails: the first key is not the name without its prefix.
    A name that holds ["Ciudad de "] further in finds its series although
    neither the prefix-stripped name nor the name is a key. *)
Lemma housing_key_is_not_prefix_strip :
  ¬ (∀ (set_iter : gset string → list string)
       (employment_data salary_data population_data housing_cost_data : CityData)
       (time_points : list string) (r : UnifiedRecord),
       r ∈ compile_data set_iter employment_data salary_data population_data
             housing_cost_data time_points →
       housing_cost_data !! strip_prefix "Ciudad de " (city r) = None →
       housing_cost_data !! city r = None →
       Py.isnan (housing_index r) = true).
Proof.
  intros H.
  specialize (H elements HousingKeyExample.employment ∅ ∅
                HousingKeyExample.housing ["2015Q1"] HousingKeyExample.row).
  assert (Hin : HousingKeyExample.row ∈ HousingKeyExample.table)
    by (vm_compute; left).
  specialize (H Hin eq_refl eq_refl). discriminate H.
Qed.

Lemma housing_index_two_keys_witness :
  JoinExample.leon_q1 ∈ JoinExample.table
  ∧ HousingKeyExample.puebla_row ∈ HousingKeyExample.puebla_table
  ∧ JoinExample.tepic_q1 ∈ JoinExample.table
  ∧ housing_index JoinExample.leon_q1 = 120%float
  ∧ housing_index HousingKeyExample.puebla_row = 90%float
  ∧ Py.isnan (housing_index JoinExample.tepic_q1) = true.
Proof.
  assert (H1 : JoinExample.leon_q1 ∈ JoinExample.table)
    by (vm_compute; left).
  assert (H2 : HousingKeyExample.puebla_row ∈ HousingKeyExample.puebla_table)
    by (vm_compute; left).
  assert (H3 : JoinExample.tepic_q1 ∈ JoinExample.table)
    by (vm_compute; do 3 right; left).
  refine (conj H1 (conj H2 (conj H3 (conj _ (conj _ _))))).
  - destruct (housing_index_two_keys _ _ _ _ _ _ _ H1) as (K & _ & _).
    rewrite (K ({[ "2015Q1" := 120%float; "2015Q2" := 0%float;
                   "2015Q3" := 0%float ]} : Series));
      vm_compute; reflexivity.
  - destruct (housing_index_two_keys _ _ _ _ _ _ _ H2) as (_ & K & _).
    rewrite (K eq_refl ({[ "2015Q1" := 90%float ]} : Series));
      vm_compute; reflexivity.
  - destruct (housing_index_two_keys _ _ _ _ _ _ _ H3) as (_ & _ & K).
    apply K; vm_compute; reflexivity.
Defined.

(** * Lists and maps: helper lemmas *)

Section ListFacts.

Lemma elem_of_unique_from (seen l : list string) (x : string) :
  x ∈ unique_from seen l ↔ x ∈ l ∧ x ∉ seen.
Proof.
  revert seen. induction l as [|y l IH]; intros seen; simpl.
  - rewrite elem_of_nil. tauto.
  - case_bool_decide as Hy.
    + rewrite IH, elem_of_cons. split; [tauto|].
      intros [[-> | ?] ?]; tauto.
    + rewrite !elem_of_cons, IH, elem_of_cons. split.
      * intros [-> | (? & ?)]; [tauto|]. split; [tauto|]. tauto.
      * intros [[-> | ?] ?]; [tauto|].
        destruct (decide (x = y)) as [-> | ?]; [tauto|]. right.
        split; [done|]. intros [? | ?]; tauto.
Qed.

Lemma elem_of_unique (l : list string) (x : string) : x ∈ unique l ↔ x ∈ l.
Proof.
  unfold unique. rewrite elem_of_unique_from, elem_of_nil. tauto.
Qed.

Lemma NoDup_unique_from (seen l : list string) : NoDup (unique_from seen l).
Proof.
  revert seen. induction l as [|y l IH]; intros seen; simpl.
  - constructor.
  - case_bool_decide; [apply IH|].
    apply NoDup_cons. split; [|apply IH].
    rewrite elem_of_unique_from, elem_of_cons. tauto.
Qed.

Lemma NoDup_unique (l : list string) : NoDup (unique l).
Proof. apply NoDup_unique_from. Qed.

(** The keys of a dictionary filled in a loop. *)
Lemma dom_foldl_insert {A} (key : A → string) (val : A → Series)
  (l : list A) (init : CityData) :
  dom (foldl (λ result x, <[key x := val x]> result) init l)
  = dom init ∪ list_to_set (key <$> l).
Proof.
  revert init. induction l as [|x l IH]; intros init; simpl.
  - set_solver.
  - rewrite IH, dom_insert_L. set_solver.
Qed.

End ListFacts.

(** * The housing-index parser keeps the metropolitan rows *)

(** C8, as amended. The parser keeps exactly the rows whose identifier
    starts with the two letters ["ZM"], in their order; a space need not
    follow. The cities of its result are the normalized identifiers of
    those rows, and no other row contributes. *)
Theorem zm_data_keeps_ZM_rows (data : list HousingRow) :
  (∀ r, r ∈ zm_data data ↔ r ∈ data ∧ String.prefix "ZM" (Global r) = true)
  ∧ sublist (zm_data data) data
  ∧ (∀ k, k ∈ dom (housing_of_rows data) ↔
       ∃ r, r ∈ data ∧ String.prefix "ZM" (Global r) = true
            ∧ k = housing_city_name (Global r)).
Proof.
  assert (Hin : ∀ r, r ∈ zm_data data
                     ↔ r ∈ data ∧ String.prefix "ZM" (Global r) = true).
  { intros r. unfold zm_data, contains_caret_ZM.
    rewrite list_elem_of_filter. tauto. }
  split; [exact Hin|]. split; [apply sublist_filter|].
  intros k. unfold housing_of_rows.
  rewrite dom_foldl_insert, dom_empty_L, elem_of_union, elem_of_list_to_set,
    list_elem_of_fmap.
  split.
  - intros [Hk | (zm & -> & Hzm)]; [by apply elem_of_empty in Hk|].
    apply elem_of_unique, list_elem_of_fmap in Hzm as (r & -> & Hr).
    apply Hin in Hr as [? ?]. by exists r.
  - intros (r & Hr & Hp & ->). right. exists (Global r). split; [done|].
    apply elem_of_unique, list_elem_of_fmap. exists r. split; [done|].
    apply Hin. done.
Qed.

(** C8 as stated fails: a row whose identifier starts with ["ZM"] and goes
    on without a space is kept. *)
Lemma zm_row_without_space_is_kept :
  ¬ (∀ (data : list HousingRow) (r : HousingRow),
       r ∈ zm_data data ↔ r ∈ data ∧ String.prefix "ZM " (Global r) = true).
Proof.
  intros H.
  destruct (H HousingExample.rows (mkHousingRow "ZMVM" 2015 1 99)) as [H1 _].
  assert (Hin : mkHousingRow "ZMVM" 2015 1 99 ∈ zm_data HousingExample.rows).
  { apply list_elem_of_filter. split; [reflexivity|]. right. left. }
  destruct (H1 Hin) as [_ Hp]. discriminate Hp.
Qed.

(** * Cell parsing *)

(** The handler of the cell loop catches the one exception [float] raises. *)
Lemma parse_cell_value (py_float : string → option float) (text : string) :
  parse_cell py_float text
  = inr (if bool_decide (text = "No aplica") then Py.nan
         else default Py.nan (py_float (Py.replace "," "." text))).
Proof.
  unfold parse_cell, float_of_str. case_bool_decide; [done|].
  by destruct (py_float (Py.replace "," "." text)).
Qed.

(** C6. Parsing a cell never raises, whatever the text and whatever
    [float] does with it: the sentinel ["No aplica"] gives null; any other
    text is read by [float] after its commas are replaced by periods, and
    gives the value read, or null where [float] fails. *)
Theorem parse_cell_never_raises (py_float : string → option float)
  (text : string) :
  ∃ v : float,
    parse_cell py_float text = inr v
    ∧ (text = "No aplica" → v = Py.nan)
    ∧ (text ≠ "No aplica" →
       ∀ x, py_float (Py.replace "," "." text) = Some x → v = x)
    ∧ (text ≠ "No aplica" →
       py_float (Py.replace "," "." text) = None → v = Py.nan).
Proof.
  rewrite parse_cell_value. eexists. split; [reflexivity|].
  case_bool_decide as Ht; [done|].
  split; [done|]. split; intros _.
  - by intros x ->.
  - by intros ->.
Qed.

Lemma parse_cell_never_raises_witness :
  parse_cell Instances.decimal_float "45,2" = inr 45.2%float
  ∧ parse_cell Instances.decimal_float "No aplica" = inr Py.nan
  ∧ parse_cell Instances.decimal_float "n/d" = inr Py.nan.
Proof.
  refine (conj _ (conj _ _)).
  - destruct (parse_cell_never_raises Instances.decimal_float "45,2")
      as (v & -> & _ & Hv & _).
    f_equal. apply Hv; [discriminate|]. vm_compute. reflexivity.
  - destruct (parse_cell_never_raises Instances.decimal_float "No aplica")
      as (v & -> & Hv & _).
    f_equal. apply Hv. reflexivity.
  - destruct (parse_cell_never_raises Instances.decimal_float "n/d")
      as (v & -> & _ & _ & Hv).
    f_equal. apply Hv; [discriminate|]. vm_compute. reflexivity.
Defined.

(** A whole row of cells is parsed without an exception as well. *)
Lemma parse_cells_never_raise (py_float : string → option float)
  (cells : list string) :
  ∃ vs, parse_cells py_float cells = inr vs ∧ length vs = length cells.
Proof.
  induction cells as [|cell rest (vs & IH & Hlen)]; simpl.
  - by exists [].
  - rewrite parse_cell_value, IH. eexists. split; [reflexivity|].
    simpl. by rewrite Hlen.
Qed.

(** * The parser's handler *)

Section Fallback.

Variable rng : Type.
Variable uniform : float → float → rng → float * rng.

Lemma dom_sample_cities_loop (values : string → rng → list float * rng)
  (cities : list string) (init : CityData) (g : rng) :
  dom (sample_cities_loop rng values cities init g).1
  = dom init ∪ list_to_set cities.
Proof.
  revert init g. induction cities as [|c rest IH]; intros init g; simpl.
  - set_solver.
  - destruct (values c g) as [vs g1]. rewrite IH, dom_insert_L. set_solver.
Qed.

Lemma create_sample_data_shape (file_type : string) (g : rng) :
  ∃ city_data g',
    create_sample_data rng uniform file_type g
    = (city_data, sample_time_points, g')
    ∧ dom city_data = list_to_set sample_cities.
Proof.
  unfold create_sample_data.
  pose proof (dom_sample_cities_loop (sample_values rng uniform file_type)
                sample_cities ∅ g) as Hdom.
  destruct (sample_cities_loop rng (sample_values rng uniform file_type)
              sample_cities ∅ g) as [city_data g'].
  exists city_data, g'. split; [done|].
  simpl in Hdom. rewrite Hdom, dom_empty_L. set_solver.
Qed.

Variable py_float : string → option float.

(** C5, as amended. When the file cannot be opened or parsed, the parser
    does not fail: its own handler returns synthetic sample data, with the
    five sample cities and the 24 quarters of 2015 to 2020. *)
Theorem unreadable_source_yields_sample_data (fs : file_system)
  (file_path : string) (g : rng) (e : Py.exn) :
  try_read_html py_float fs file_path = inl e →
  ∃ city_data g',
    read_excel_html_table rng uniform py_float fs file_path g
    = inr (city_data, sample_time_points, g')
    ∧ create_sample_data rng uniform file_path g
      = (city_data, sample_time_points, g')
    ∧ dom city_data = list_to_set sample_cities
    ∧ length sample_time_points = 24%nat.
Proof.
  intros He. unfold read_excel_html_table. rewrite He.
  destruct (create_sample_data_shape file_path g) as (cd & g' & -> & Hdom).
  exists cd, g'. done.
Qed.

End Fallback.

(** C5 as stated fails: with the file missing the parser returns a value
    and raises nothing. *)
Lemma missing_file_is_not_propagated :
  ¬ (∀ (rng : Type) (uniform : float → float → rng → float * rng)
       (py_float : string → option float) (fs : file_system)
       (file_path : string) (g : rng) (e : Py.exn),
       try_read_html py_float fs file_path = inl e →
       ∃ e', read_excel_html_table rng uniform py_float fs file_path g = inl e').
Proof.
  intros H.
  assert (Hm : try_read_html Instances.decimal_float ∅ EMPLOYMENT_RATE_FILE
               = inl Py.OSError) by (vm_compute; reflexivity).
  destruct (H unit Instances.midpoint Instances.decimal_float ∅
              EMPLOYMENT_RATE_FILE tt Py.OSError Hm) as [e' He'].
  vm_compute in He'. discriminate He'.
Qed.

Lemma unreadable_source_yields_sample_data_witness :
  try_read_html Instances.decimal_float ∅ EMPLOYMENT_RATE_FILE = inl Py.OSError
  ∧ ∃ city_data g',
      read_excel_html_table unit Instances.midpoint Instances.decimal_float
        ∅ EMPLOYMENT_RATE_FILE tt
      = inr (city_data, sample_time_points, g')
      ∧ dom city_data = list_to_set sample_cities.
Proof.
  assert (Hm : try_read_html Instances.decimal_float ∅ EMPLOYMENT_RATE_FILE
               = inl Py.OSError) by (vm_compute; reflexivity).
  split; [exact Hm|].
  destruct (unreadable_source_yields_sample_data unit Instances.midpoint
              Instances.decimal_float ∅ EMPLOYMENT_RATE_FILE tt Py.OSError
              Hm) as (cd & g' & H1 & _ & H2 & _).
  exists cd, g'. split; assumption.
Defined.

(** * The growth engine: helper lemmas *)

Section FilterFacts.

Context {B : Type}.

Lemma filter_all (P : B → Prop) `{∀ x, Decision (P x)} (l : list B) :
  (∀ x, x ∈ l → P x) → filter P l = l.
Proof.
  induction l as [|x l IH]; intros Hall; [done|].
  rewrite filter_cons_True by (apply Hall; left).
  f_equal. apply IH. intros y Hy. apply Hall. by right.
Qed.

Lemma filter_none (P : B → Prop) `{∀ x, Decision (P x)} (l : list B) :
  (∀ x, x ∈ l → ¬ P x) → filter P l = [].
Proof.
  induction l as [|x l IH]; intros Hnone; [done|].
  rewrite filter_cons_False by (apply Hnone; left).
  apply IH. intros y Hy. apply Hnone. by right.
Qed.

(** A table built block by block, one block per key of a duplicate-free
    list: the rows of one key are the block of that key. *)
Lemma filter_bind_key {K : Type} `{EqDecision K} (key : B → K)
  (block : K → list B) (l : list K) (c : K) :
  NoDup l →
  (∀ x b, b ∈ block x → key b = x) →
  filter (λ b, key b = c) (l ≫= block)
  = if bool_decide (c ∈ l) then block c else [].
Proof.
  intros Hnd Hkey. induction l as [|x l IH]; [done|].
  apply NoDup_cons in Hnd as [Hx Hnd]. specialize (IH Hnd).
  rewrite bind_cons, filter_app, IH.
  destruct (decide (x = c)) as [-> | Hne].
  - rewrite filter_all by (intros b Hb; by apply Hkey).
    rewrite (bool_decide_eq_false_2 _ Hx), app_nil_r.
    rewrite bool_decide_eq_true_2 by left. done.
  - rewrite filter_none
      by (intros b Hb Hc; apply Hkey in Hb; congruence).
    assert (Heq : bool_decide (c ∈ x :: l) = bool_decide (c ∈ l))
      by (apply bool_decide_ext; rewrite elem_of_cons; naive_solver).
    by rewrite Heq.
Qed.

End FilterFacts.



Lemma cagr_years_max (start_y end_y : Z) :
  cagr_years start_y end_y = Z.max (end_y - start_y) 1.
Proof. unfold cagr_years. destruct (Z.gtb_spec end_y start_y); lia. Qed.

#[global] Instance y_year_le_total : Total y_year_le.
Proof. intros a b. unfold y_year_le. lia. Qed.

#[global] Instance cy_year_le_total : Total cy_year_le.
Proof. intros a b. unfold cy_year_le. lia. Qed.

Section GrowthLoop.

Variable c : string.

Lemma growth_loop_city (rows : list YearlyAggregate) (g : GrowthRecord) :
  g ∈ growth_loop c rows → g_city g = c.
Proof.
  induction rows as [|prev rest IH]; simpl; [by intros ?%elem_of_nil|].
  destruct rest as [|curr rest']; [by intros ?%elem_of_nil|].
  intros [-> | Hg]%elem_of_cons; [done|]. by apply IH.
Qed.



End GrowthLoop.

(** * The order of the group keys *)

Section KeyOrder.

Lemma string_compare_refl (s : string) : String.compare s s = Eq.
Proof.
  pose proof (String.compare_antisym s s) as H.
  destruct (String.compare s s); simpl in H; congruence.
Qed.

Lemma ascii_compare_lt_trans (a b c : ascii) :
  Ascii.compare a b = Lt → Ascii.compare b c = Lt → Ascii.compare a c = Lt.
Proof.
  unfold Ascii.compare. rewrite !N.compare_lt_iff. lia.
Qed.

Lemma string_compare_lt_trans (s1 s2 s3 : string) :
  String.compare s1 s2 = Lt → String.compare s2 s3 = Lt →
  String.compare s1 s3 = Lt.
Proof.
  revert s2 s3. induction s1 as [|c1 s1 IH]; intros [|c2 s2] [|c3 s3];
    simpl; try done.
  destruct (Ascii.compare c1 c2) eqn:E12; [| |done];
    destruct (Ascii.compare c2 c3) eqn:E23; try done.
  - apply Ascii.compare_eq_iff in E12 as ->. rewrite E23. apply IH.
  - apply Ascii.compare_eq_iff in E12 as ->. by rewrite E23.
  - apply Ascii.compare_eq_iff in E23 as <-. by rewrite E12.
  - by rewrite (ascii_compare_lt_trans _ _ _ E12 E23).
Qed.

#[global] Instance key_le_total : Total key_le.
Proof.
  intros [c1 y1] [c2 y2]. unfold key_le, key_leb. simpl.
  rewrite (String.compare_antisym c2 c1).
  destruct (String.compare c1 c2); simpl; [lia | by left | by right].
Qed.

#[global] Instance key_le_antisymm : AntiSymm (=) key_le.
Proof.
  intros [c1 y1] [c2 y2]. unfold key_le, key_leb. simpl.
  rewrite (String.compare_antisym c2 c1).
  destruct (String.compare c1 c2) eqn:E; simpl; try done.
  apply String.compare_eq_iff in E as ->. intros H1 H2. f_equal. lia.
Qed.

#[global] Instance key_le_trans : Transitive key_le.
Proof.
  intros [c1 y1] [c2 y2] [c3 y3]. unfold key_le, key_leb. simpl.
  destruct (String.compare c1 c2) eqn:E12; [| |done];
    destruct (String.compare c2 c3) eqn:E23; try done.
  - apply String.compare_eq_iff in E12 as ->. rewrite E23. lia.
  - apply String.compare_eq_iff in E12 as ->. by rewrite E23.
  - apply String.compare_eq_iff in E23 as <-. by rewrite E12.
  - by rewrite (string_compare_lt_trans _ _ _ E12 E23).
Qed.

(** Sorting the distinct keys gives one list, whatever the order of the
    rows they were collected from. *)
Lemma group_keys_Permutation (data1 data2 : list UnifiedRecord) :
  data1 ≡ₚ data2 → group_keys data1 = group_keys data2.
Proof.
  intros Hp. unfold group_keys.
  apply (Sorted_unique key_le); try apply Sorted_merge_sort; try apply _.
  rewrite !merge_sort_Permutation.
  apply NoDup_Permutation; try apply NoDup_remove_dups.
  intros k. rewrite !elem_of_remove_dups. by rewrite Hp.
Qed.

Lemma NoDup_group_keys (data : list UnifiedRecord) : NoDup (group_keys data).
Proof.
  unfold group_keys. rewrite merge_sort_Permutation. apply NoDup_remove_dups.
Qed.

Lemma elem_of_group_keys (data : list UnifiedRecord) (k : string * Z) :
  k ∈ group_keys data ↔ ∃ r, r ∈ data ∧ group_key r = k.
Proof.
  unfold group_keys.
  rewrite merge_sort_Permutation, elem_of_remove_dups, list_elem_of_fmap.
  naive_solver.
Qed.

End KeyOrder.

(** * Yearly rows in year order *)

(** A list sorted by a key that occurs once each ascends strictly. *)
Lemma Sorted_strict {A} (f : A → Z) (l : list A) :
  Sorted (λ a b, f a ≤ f b) l → NoDup (f <$> l) →
  Sorted (λ a b, f a < f b) l.
Proof.
  induction 1 as [|a l Hs IH Hhd]; intros Hnd; [constructor|].
  rewrite fmap_cons in Hnd. apply NoDup_cons in Hnd as [Ha Hnd].
  constructor; [by apply IH|].
  destruct Hhd as [|b l' Hab]; constructor.
  assert (f a ≠ f b); [|lia].
  intros Heq. apply Ha. rewrite Heq, fmap_cons. left.
Qed.

(** In a table with one row per key, the rows selected for one city have
    distinct years. *)
Lemma NoDup_years_of_city {R} (row : string * Z → R) (rcity : R → string)
  (ryear : R → Z) (P : R → Prop) `{∀ r, Decision (P r)}
  (keys : list (string * Z)) (c : string) :
  (∀ k, rcity (row k) = k.1) → (∀ k, ryear (row k) = k.2) →
  (∀ r, P r → rcity r = c) →
  NoDup keys →
  NoDup (ryear <$> filter P (row <$> keys)).
Proof.
  intros Hcity Hyear HP. induction keys as [|k ks IH]; [constructor|].
  intros [Hk Hnd]%NoDup_cons. specialize (IH Hnd).
  rewrite fmap_cons. destruct (decide (P (row k))) as [Hc | Hc].
  - rewrite filter_cons_True by done. rewrite fmap_cons.
    apply NoDup_cons. split; [|done].
    intros (r & Hy & Hr)%list_elem_of_fmap.
    apply list_elem_of_filter in Hr as [Hrc Hr].
    apply list_elem_of_fmap in Hr as (k' & -> & Hk').
    apply Hk. apply HP in Hc, Hrc. rewrite Hcity in Hc, Hrc.
    rewrite !Hyear in Hy.
    destruct k as [c1 y1], k' as [c2 y2]. simpl in *. by subst.
  - by rewrite filter_cons_False.
Qed.

(** The first row of a strictly ascending list of two rows or more is
    below its last row. *)
Lemma Sorted_strict_head_last {A} (f : A → Z) (l : list A) (a b : A) :
  Sorted (λ a b, f a < f b) l → (2 ≤ length l)%nat →
  head l = Some a → last l = Some b → f a < f b.
Proof.
  intros Hs Hlen Ha Hb.
  assert (Htr : Transitive (λ a b : A, f a < f b)) by (intros x y z; lia).
  apply (Sorted_StronglySorted _) in Hs.
  destruct l as [|x [|y l']]; simpl in Hlen; try lia.
  injection Ha as ->. rewrite last_cons_cons in Hb.
  apply StronglySorted_inv in Hs as [_ Hall].
  rewrite Forall_forall in Hall. apply Hall.
  by apply last_Some_elem_of.
Qed.

(** * Year-over-year growth *)

Lemma Sorted_lookup_adjacent {A} (R : relation A) (l : list A) (i : nat)
  (a b : A) :
  Sorted R l → l !! i = Some a → l !! S i = Some b → R a b.
Proof.
  intros Hs. revert i. induction Hs as [|x l Hs IH Hhd]; intros i; [done|].
  destruct i as [|i]; simpl.
  - intros [= ->] Hb. destruct Hhd as [|y l' Hxy]; [done|].
    simpl in Hb. by injection Hb as ->.
  - apply IH.
Qed.

Section GrowthClaim.

Variable mean : list float → float.

Lemma elem_of_yearly_data (data : list UnifiedRecord) (r : YearlyAggregate) :
  r ∈ yearly_data mean data ↔
  ∃ k, k ∈ group_keys data ∧ r = yearly_row mean data k.
Proof.
  unfold yearly_data. rewrite list_elem_of_fmap. naive_solver.
Qed.

(** The yearly rows of a city are the aggregates of its observed years. *)
Lemma elem_of_yearly_data_city (data : list UnifiedRecord) (c : string)
  (r : YearlyAggregate) :
  r ∈ yearly_data mean data ∧ y_city r = c ↔
  ∃ u, u ∈ data ∧ city u = c ∧ r = yearly_row mean data (c, year u).
Proof.
  rewrite elem_of_yearly_data. split.
  - intros [(k & Hk & ->) Hc]. apply elem_of_group_keys in Hk as (u & Hu & <-).
    simpl in Hc. exists u. unfold group_key. by rewrite Hc.
  - intros (u & Hu & Hc & ->). split; [|done].
    exists (c, year u). split; [|done].
    apply elem_of_group_keys. exists u. unfold group_key. by rewrite Hc.
Qed.

(** The years of one city in the yearly table are distinct. *)
Lemma NoDup_city_years (data : list UnifiedRecord) (c : string) :
  NoDup (y_year <$> filter (λ r, y_city r = c) (yearly_data mean data)).
Proof.
  apply (NoDup_years_of_city (yearly_row mean data) y_city y_year _ _ c);
    try done.
  apply NoDup_group_keys.
Qed.

Lemma city_yearly_Permutation (yd : list YearlyAggregate) (c : string) :
  city_yearly yd c ≡ₚ filter (λ r, y_city r = c) yd.
Proof. apply merge_sort_Permutation. Qed.

Lemma city_yearly_ascending (data : list UnifiedRecord) (c : string) :
  Sorted (λ a b, y_year a < y_year b) (city_yearly (yearly_data mean data) c).
Proof.
  apply Sorted_strict; [apply (Sorted_merge_sort y_year_le)|].
  rewrite city_yearly_Permutation. apply NoDup_city_years.
Qed.

(** The records of one city in the result are the records of its loop. *)
Lemma growth_records_of_city (data : list UnifiedRecord)
  (out : list GrowthRecord) (c : string) :
  calculate_growth_rates mean data = inr out →
  filter (λ g, g_city g = c) out
  = growth_loop c (city_yearly (yearly_data mean data) c).
Proof.
  unfold calculate_growth_rates. destruct data as [|r0 data']; [done|].
  intros [= <-]. set (yd := yearly_data mean (r0 :: data')).
  rewrite (filter_bind_key g_city
             (λ c, growth_loop c (city_yearly yd c)))
    by (try apply NoDup_unique; intros x b; apply growth_loop_city).
  case_bool_decide as Hc; [done|].
  assert (Hnil : city_yearly yd c = []); [|by rewrite Hnil].
  apply Permutation_nil_r. rewrite city_yearly_Permutation.
  rewrite filter_none; [done|].
  intros r Hr Hrc. apply Hc, elem_of_unique, list_elem_of_fmap.
  by exists r.
Qed.


End GrowthClaim.

(** * Compound annual growth *)

Section CagrClaim.

Variable mean : list float → float.
Variable pow : float → float → float.

Lemma cagr_city_city (start_y end_y : Z) (c : string)
  (rows : list CagrYearly) (g : CAGRRecord) :
  g ∈ cagr_city pow start_y end_y c rows → c_city g = c.
Proof.
  unfold cagr_city. case_bool_decide; [|by intros ?%elem_of_nil].
  destruct (head rows), (last rows); try by intros ?%elem_of_nil.
  by intros ->%list_elem_of_singleton.
Qed.

Lemma cagr_city_data_Permutation (fd : list CagrYearly) (c : string) :
  cagr_city_data fd c ≡ₚ filter (λ r, cy_city r = c) fd.
Proof. apply merge_sort_Permutation. Qed.


(** The rows of one city inside the window ascend strictly by year. *)
Lemma cagr_city_data_ascending (data : list UnifiedRecord)
  (start_y end_y : Z) (c : string) :
  Sorted (λ a b, cy_year a < cy_year b)
    (cagr_city_data (filter_window start_y end_y (cagr_yearly_data mean data)) c).
Proof.
  apply Sorted_strict; [apply (Sorted_merge_sort cy_year_le)|].
  rewrite cagr_city_data_Permutation. unfold filter_window.
  rewrite list_filter_filter.
  apply (NoDup_years_of_city (cagr_yearly_row mean data) cy_city cy_year _ _ c);
    try done; [tauto|].
  apply NoDup_group_keys.
Qed.

(** The records of one city in the result are those of its own rows. *)
Lemma cagr_records_of_city (data : list UnifiedRecord) (start_y end_y : Z)
  (out : list CAGRRecord) (c : string) :
  calculate_cagr mean pow data start_y end_y = inr out →
  filter (λ g, c_city g = c) out
  = cagr_city pow start_y end_y c
      (cagr_city_data (filter_window start_y end_y (cagr_yearly_data mean data)) c).
Proof.
  unfold calculate_cagr. destruct data as [|r0 data']; [done|].
  intros [= <-].
  set (fd := filter_window start_y end_y (cagr_yearly_data mean (r0 :: data'))).
  rewrite (filter_bind_key c_city
             (λ c, cagr_city pow start_y end_y c (cagr_city_data fd c)))
    by (try apply NoDup_unique; intros x b; apply cagr_city_city).
  case_bool_decide as Hc; [done|].
  assert (Hnil : cagr_city_data fd c = []); [|by rewrite Hnil].
  apply Permutation_nil_r. rewrite cagr_city_data_Permutation.
  rewrite filter_none; [done|].
  intros r Hr Hrc. apply Hc, elem_of_unique, list_elem_of_fmap.
  by exists r.
Qed.


End CagrClaim.



(** * Two runs of the pipeline *)

(** The rows of a city all carry its name. *)
Lemma city_rows_city (employment_data salary_data population_data
  housing_cost_data : CityData) (time_points : list string)
  (c : string) (r : UnifiedRecord) :
  r ∈ city_rows employment_data salary_data population_data
        housing_cost_data time_points c →
  city r = c.
Proof.
  unfold city_rows.
  destruct (bool_decide (c = AREAS_METROPOLITANAS) || bool_decide (c = ""));
    [by intros ?%elem_of_nil|].
  intros (tp & _ & Hrow)%list_elem_of_omap.
  by apply compile_row_fields in Hrow as (-> & _).
Qed.

Section SetOrder.

Variables iter1 iter2 : gset string → list string.
Hypothesis iter1_elements : ∀ s, iter1 s ≡ₚ elements s.
Hypothesis iter2_elements : ∀ s, iter2 s ≡ₚ elements s.

Variables employment_data salary_data population_data : CityData.
Variable housing_cost_data : CityData.
Variable time_points : list string.

Abbreviation table1 :=
  (compile_data iter1 employment_data salary_data population_data
     housing_cost_data time_points).
Abbreviation table2 :=
  (compile_data iter2 employment_data salary_data population_data
     housing_cost_data time_points).

(** The two tables hold the same rows. *)
Lemma compile_data_Permutation : table1 ≡ₚ table2.
Proof.
  unfold compile_data. apply bind_Permutation.
  by rewrite iter1_elements, iter2_elements.
Qed.

(** The rows of one city stand in the same order in both tables. *)
Lemma compile_data_city_block (c : string) :
  filter (λ r, city r = c) table1 = filter (λ r, city r = c) table2.
Proof.
  unfold compile_data.
  set (s := all_cities employment_data salary_data population_data).
  rewrite !(filter_bind_key city); try (intros x b; apply city_rows_city).
  - assert (Heq : bool_decide (c ∈ iter1 s) = bool_decide (c ∈ iter2 s));
      [|by rewrite Heq].
    apply bool_decide_ext. by rewrite iter1_elements, iter2_elements.
  - rewrite iter2_elements. apply NoDup_elements.
  - rewrite iter1_elements. apply NoDup_elements.
Qed.

Lemma compile_data_group_rows (k : string * Z) :
  group_rows k table1 = group_rows k table2.
Proof.
  unfold group_rows.
  assert (Hsplit : ∀ l : list UnifiedRecord,
            filter (λ r, group_key r = k) l
            = filter (λ r, year r = k.2) (filter (λ r, city r = k.1) l)).
  { intros l. rewrite list_filter_filter. apply list_filter_iff.
    intros r. unfold group_key. destruct k as [c y]. simpl. naive_solver. }
  rewrite !Hsplit. by rewrite compile_data_city_block.
Qed.

End SetOrder.

(** The growth engine reads a table through its group keys and the rows
    of each group only. *)
Section SameGroups.

Variable mean : list float → float.
Variable pow : float → float → float.
Variables data1 data2 : list UnifiedRecord.
Hypothesis same_rows : data1 ≡ₚ data2.
Hypothesis same_groups : ∀ k, group_rows k data1 = group_rows k data2.

Lemma yearly_data_same_groups :
  yearly_data mean data1 = yearly_data mean data2.
Proof.
  unfold yearly_data. rewrite (group_keys_Permutation _ _ same_rows).
  apply list_fmap_ext. intros _ k _. unfold yearly_row.
  by rewrite same_groups.
Qed.

Lemma cagr_yearly_data_same_groups :
  cagr_yearly_data mean data1 = cagr_yearly_data mean data2.
Proof.
  unfold cagr_yearly_data. rewrite (group_keys_Permutation _ _ same_rows).
  apply list_fmap_ext. intros _ k _. unfold cagr_yearly_row.
  by rewrite same_groups.
Qed.

Lemma calculate_growth_rates_same_groups :
  calculate_growth_rates mean data1 = calculate_growth_rates mean data2.
Proof.
  unfold calculate_growth_rates. rewrite yearly_data_same_groups.
  destruct data1, data2; try done.
  - by apply Permutation_nil_cons in same_rows.
  - symmetry in same_rows. by apply Permutation_nil_cons in same_rows.
Qed.

Lemma calculate_cagr_same_groups (start_y end_y : Z) :
  calculate_cagr mean pow data1 start_y end_y
  = calculate_cagr mean pow data2 start_y end_y.
Proof.
  unfold calculate_cagr. rewrite cagr_yearly_data_same_groups.
  destruct data1, data2; try done.
  - by apply Permutation_nil_cons in same_rows.
  - symmetry in same_rows. by apply Permutation_nil_cons in same_rows.
Qed.

End SameGroups.

Section TwoRuns.

Variable rng : Type.
Variable uniform : float → float → rng → float * rng.
Variable py_float : string → option float.
Variable mean : list float → float.
Variable pow : float → float → float.

(** With readable sources the tables are those of the parsed files; the
    generator plays no part. *)
Lemma main_body_readable (fs : file_system) :
  sources_readable py_float fs →
  ∃ employment_data salary_data population_data housing_cost_data time_points,
    ∀ (set_iter : gset string → list string) (g : rng),
      main_body rng uniform py_float set_iter mean pow fs g
      = (let city_data :=
           compile_data set_iter employment_data salary_data population_data
             housing_cost_data time_points in
         yearly_growth ← calculate_growth_rates mean city_data;
         cagr_data ← calculate_cagr mean pow city_data 2015 2020;
         inr (city_data, yearly_growth, cagr_data)).
Proof.
  intros ([[emp tps] He] & [[sal tps2] Hs] & [[pop tps3] Hp] & [hous Hh]).
  exists emp, sal, pop, hous, tps. intros set_iter g.
  unfold main_body, read_excel_html_table, read_housing_cost.
  rewrite He, Hs, Hp, Hh. reflexivity.
Qed.

(** C9, as amended. Two runs on the same readable source files whose
    series have distinct labels, each run with its own set order and
    generator state, both fail or both return tables; the growth table and
    the CAGR table are then identical, row order included, and the unified
    tables hold the same rows, the rows of every city in the same order,
    with the cities in the order of each run's set. Runs with the same set
    order return identical tables. *)
Theorem runs_agree_up_to_city_order (iter1 iter2 : gset string → list string)
  (fs : file_system) (g1 g2 : rng) :
  sources_readable py_float fs →
  labels_distinct py_float fs →
  (∀ s, iter1 s ≡ₚ elements s) →
  (∀ s, iter2 s ≡ₚ elements s) →
  match main rng uniform py_float iter1 mean pow fs g1,
        main rng uniform py_float iter2 mean pow fs g2 with
  | Some (unified1, growth1, cagr1), Some (unified2, growth2, cagr2) =>
      unified1 ≡ₚ unified2
      ∧ (∀ c, filter (λ r, city r = c) unified1
              = filter (λ r, city r = c) unified2)
      ∧ growth1 = growth2
      ∧ cagr1 = cagr2
  | None, None => True
  | _, _ => False
  end
  ∧ ((∀ s, iter1 s = iter2 s) →
     main rng uniform py_float iter1 mean pow fs g1
     = main rng uniform py_float iter2 mean pow fs g2).
Proof.
  intros Hread _ H1 H2.
  destruct (main_body_readable fs Hread)
    as (emp & sal & pop & hous & tps & Hbody).
  unfold main. rewrite !Hbody. cbv zeta.
  set (t1 := compile_data iter1 emp sal pop hous tps).
  set (t2 := compile_data iter2 emp sal pop hous tps).
  assert (Hperm : t1 ≡ₚ t2) by by apply compile_data_Permutation.
  assert (Hgroups : ∀ k, group_rows k t1 = group_rows k t2)
    by by apply compile_data_group_rows.
  split.
  - rewrite (calculate_growth_rates_same_groups mean t1 t2 Hperm Hgroups).
    rewrite (calculate_cagr_same_groups mean pow t1 t2 Hperm Hgroups).
    destruct (calculate_growth_rates mean t2) as [e | growth]; [done|].
    destruct (calculate_cagr mean pow t2 2015 2020) as [e | cagr]; [done|].
    simpl. split; [done|]. split; [|done].
    intros c. by apply compile_data_city_block.
  - intros Heq. assert (Ht : t1 = t2); [|by rewrite Ht].
    unfold t1, t2, compile_data. by rewrite Heq.
Qed.

End TwoRuns.

Lemma pipeline_files_readable :
  sources_readable Instances.decimal_float PipelineExample.files.
Proof.
  unfold sources_readable, readable.
  refine (conj _ (conj _ (conj _ _))); eexists; vm_compute; reflexivity.
Qed.

Lemma NoDup_fmap_filter {A B} (f : A → B) (P : A → Prop)
  `{∀ x, Decision (P x)} (l : list A) :
  NoDup (f <$> l) → NoDup (f <$> filter P l).
Proof.
  intros Hnd. apply (sublist_NoDup _ _ Hnd).
  apply fmap_sublist, sublist_filter.
Qed.

Lemma pipeline_files_labels_distinct :
  labels_distinct Instances.decimal_float PipelineExample.files.
Proof.
  assert (Hq : ∀ file_path cd tps,
            match try_read_html Instances.decimal_float PipelineExample.files
                    file_path with
            | inr (_, t) => t
            | inl _ => []
            end = ["2015Q1"; "2015Q2"; "2016Q1"; "2016Q2"] →
            try_read_html Instances.decimal_float PipelineExample.files
              file_path = inr (cd, tps) →
            NoDup tps).
  { intros file_path cd tps Ht Hread. rewrite Hread in Ht. rewrite Ht.
    apply (bool_decide_unpack (NoDup _)). vm_compute. exact I. }
  refine (conj _ (conj _ (conj _ _))).
  - intros cd tps. apply Hq. vm_compute. reflexivity.
  - intros cd tps. apply Hq. vm_compute. reflexivity.
  - intros cd tps. apply Hq. vm_compute. reflexivity.
  - intros rows zm Hfile.
    assert (Hrows : PipelineExample.files !! HOUSING_COST_FILE
                    = Some (CsvTable PipelineExample.housing_rows))
      by (vm_compute; reflexivity).
    rewrite Hrows in Hfile. injection Hfile as <-.
    apply NoDup_fmap_filter.
    apply (bool_decide_unpack (NoDup _)). vm_compute. exact I.
Qed.

Lemma forward_elements (s : gset string) :
  PipelineExample.forward s ≡ₚ elements s.
Proof. done. Qed.

Lemma backward_elements (s : gset string) :
  PipelineExample.backward s ≡ₚ elements s.
Proof. apply reverse_Permutation. Qed.

(** C9 as stated fails: on the same readable files, with distinct labels
    in every series, a run that visits the set of cities in another order
    returns a unified table in another row order. *)
Lemma unified_rows_follow_set_order :
  ¬ (∀ (rng : Type) (uniform : float → float → rng → float * rng)
       (py_float : string → option float) (mean : list float → float)
       (pow : float → float → float)
       (iter1 iter2 : gset string → list string)
       (fs : file_system) (g1 g2 : rng),
       sources_readable py_float fs →
       labels_distinct py_float fs →
       (∀ s, iter1 s ≡ₚ elements s) →
       (∀ s, iter2 s ≡ₚ elements s) →
       main rng uniform py_float iter1 mean pow fs g1
       = main rng uniform py_float iter2 mean pow fs g2).
Proof.
  intros H.
  specialize (H unit Instances.midpoint Instances.decimal_float
                Instances.skipna_mean Instances.sqrt_pow
                PipelineExample.forward PipelineExample.backward
                PipelineExample.files tt tt
                pipeline_files_readable
                pipeline_files_labels_distinct
                forward_elements
                backward_elements).
  vm_compute in H. discriminate H.
Qed.

Lemma runs_agree_up_to_city_order_witness :
  sources_readable Instances.decimal_float PipelineExample.files
  ∧ labels_distinct Instances.decimal_float PipelineExample.files
  ∧ ∃ unified1 unified2 growth cagr,
      PipelineExample.run PipelineExample.forward
      = Some (unified1, growth, cagr)
      ∧ PipelineExample.run PipelineExample.backward
        = Some (unified2, growth, cagr)
      ∧ unified1 ≡ₚ unified2
      ∧ length unified1 = 8%nat ∧ length growth = 2%nat.
Proof.
  split; [exact pipeline_files_readable|].
  split; [exact pipeline_files_labels_distinct|].
  destruct (runs_agree_up_to_city_order unit Instances.midpoint
              Instances.decimal_float Instances.skipna_mean Instances.sqrt_pow
              PipelineExample.forward PipelineExample.backward
              PipelineExample.files tt tt
              pipeline_files_readable
              pipeline_files_labels_distinct
              forward_elements
              backward_elements) as [Hruns _].
  fold (PipelineExample.run PipelineExample.forward) in Hruns.
  fold (PipelineExample.run PipelineExample.backward) in Hruns.
  destruct (PipelineExample.run PipelineExample.forward)
    as [[[u1 gr1] c1]|] eqn:E1;
    [|vm_compute in E1; discriminate E1].
  destruct (PipelineExample.run PipelineExample.backward)
    as [[[u2 gr2] c2]|] eqn:E2; [|destruct Hruns].
  destruct Hruns as (Hperm & _ & <- & <-).
  exists u1, u2, gr1, c1.
  refine (conj eq_refl (conj eq_refl (conj Hperm _))).
  vm_compute in E1. injection E1 as <- <- <-. split; reflexivity.
Defined.
(** * Further properties of the join *)

Lemma digit_value_bounds (c : ascii) :
  Py.isdigit c = true → 0 ≤ Py.digit_value c ≤ 9.
Proof.
  unfold Py.isdigit, Py.digit_value.
  intros [H1 H2]%andb_prop. apply N.leb_le in H1, H2. lia.
Qed.

(** What the pattern reads is a year of four digits and one digit more. *)
Lemma match_time_point_bounds (tp : string) (y q : Z) :
  match_time_point tp = Some (y, q) → 0 ≤ y ≤ 9999 ∧ 0 ≤ q ≤ 9.
Proof.
  unfold match_time_point.
  destruct tp as [|a [|b [|c [|d [|sep [|qc rest]]]]]]; try done.
  destruct (Py.isdigit a) eqn:Ha; [|done].
  destruct (Py.isdigit b) eqn:Hb; [|done].
  destruct (Py.isdigit c) eqn:Hc; [|done].
  destruct (Py.isdigit d) eqn:Hd; [|done].
  destruct (Ascii.eqb sep "Q"); [|done].
  destruct (Py.isdigit qc) eqn:Hq; [|done].
  simpl. intros [= <- <-].
  apply digit_value_bounds in Ha, Hb, Hc, Hd, Hq. lia.
Qed.

Section JoinGrid.

Variable set_iter : gset string → list string.
Hypothesis set_iter_elements : ∀ s, set_iter s ≡ₚ elements s.

Variables employment_data salary_data population_data : CityData.
Variable housing_cost_data : CityData.
Variable time_points : list string.

Abbreviation grid :=
  (compile_data set_iter employment_data salary_data population_data
     housing_cost_data time_points).
Abbreviation universe :=
  (all_cities employment_data salary_data population_data).

(** X1. Every row of the joined table belongs to a city of the employment,
    salary or population source, never to a city known to the housing
    source only; its city is neither empty nor the reserved aggregate
    label; its time point is one of the canonical sequence, and its year
    and quarter are the four digits and the digit read from it, so the
    year lies in 0..9999 and the quarter in 0..9. *)
Theorem joined_rows_in_grid (r : UnifiedRecord) :
  r ∈ grid →
  (city r ∈ dom employment_data ∨ city r ∈ dom salary_data
   ∨ city r ∈ dom population_data)
  ∧ city r ≠ "" ∧ city r ≠ AREAS_METROPOLITANAS
  ∧ time_point r ∈ time_points
  ∧ match_time_point (time_point r) = Some (year r, quarter r)
  ∧ 0 ≤ year r ≤ 9999 ∧ 0 ≤ quarter r ≤ 9.
Proof.
  intros (c & tp & Hc & Ha & He & Htp & Hrow)%elem_of_compile_data.
  apply compile_row_fields in Hrow as (-> & -> & Hm & _).
  rewrite set_iter_elements, elem_of_elements in Hc.
  unfold all_cities in Hc. rewrite !elem_of_union in Hc.
  pose proof (match_time_point_bounds _ _ _ Hm).
  repeat split; try tauto; done.
Qed.

(** X2. The joined table is a full grid: every city of the universe that
    is neither empty nor the reserved label has a row at every canonical
    time point that matches the pattern, whatever is missing in the
    sources. *)
Theorem joined_grid_complete (c tp : string) :
  c ∈ universe → c ≠ "" → c ≠ AREAS_METROPOLITANAS →
  tp ∈ time_points → is_Some (match_time_point tp) →
  ∃ r, r ∈ grid ∧ city r = c ∧ time_point r = tp.
Proof.
  intros Hc He Ha Htp [[y q] Hm].
  assert (Hrow : ∃ r, compile_row employment_data salary_data population_data
                        housing_cost_data c tp = Some r).
  { unfold compile_row. rewrite Hm. eauto. }
  destruct Hrow as [r Hrow]. exists r.
  pose proof (compile_row_fields _ _ _ _ _ _ _ Hrow) as (? & ? & _).
  split; [|done]. apply elem_of_compile_data. exists c, tp.
  rewrite set_iter_elements, elem_of_elements. done.
Qed.

Lemma length_omap_compile_row (c : string) (tps : list string) :
  length (omap (compile_row employment_data salary_data population_data
                  housing_cost_data c) tps)
  = length (filter (λ tp, is_Some (match_time_point tp)) tps).
Proof.
  induction tps as [|tp tps IH]; [done|]. csimpl.
  unfold compile_row at 1.
  destruct (match_time_point tp) as [[y q]|] eqn:Hm.
  - rewrite filter_cons_True by (rewrite Hm; eauto). csimpl. by rewrite IH.
  - rewrite filter_cons_False by (rewrite Hm; by intros [? ?]). done.
Qed.

Lemma length_city_rows (c : string) :
  length (city_rows employment_data salary_data population_data
            housing_cost_data time_points c)
  = if bool_decide (c ≠ "" ∧ c ≠ AREAS_METROPOLITANAS)
    then length (filter (λ tp, is_Some (match_time_point tp)) time_points)
    else 0%nat.
Proof.
  unfold city_rows.
  destruct (decide (c ≠ "" ∧ c ≠ AREAS_METROPOLITANAS)) as [[He Ha] | Hv].
  - rewrite (bool_decide_eq_true_2 (c ≠ "" ∧ c ≠ AREAS_METROPOLITANAS))
      by done.
    rewrite (bool_decide_eq_false_2 _ Ha), (bool_decide_eq_false_2 _ He).
    simpl. apply length_omap_compile_row.
  - rewrite (bool_decide_eq_false_2 (c ≠ "" ∧ c ≠ AREAS_METROPOLITANAS))
      by done.
    destruct (decide (c = AREAS_METROPOLITANAS)) as [Ha | Ha].
    { by rewrite (bool_decide_eq_true_2 _ Ha). }
    destruct (decide (c = "")) as [He | He]; [|tauto].
    rewrite (bool_decide_eq_true_2 _ He). by rewrite orb_true_r.
Qed.

(** X3. The joined table has one row for each pair of a valid city and a
    matching time point: its length is the product of their numbers. *)
Theorem joined_grid_size :
  length grid
  = (length (filter (λ c, c ≠ "" ∧ c ≠ AREAS_METROPOLITANAS)
               (elements universe))
     * length (filter (λ tp, is_Some (match_time_point tp)) time_points))%nat.
Proof.
  unfold compile_data. rewrite (set_iter_elements universe).
  induction (elements universe) as [|c l IH]; [done|].
  rewrite bind_cons, length_app, IH, length_city_rows.
  case_bool_decide as Hc.
  - rewrite filter_cons_True by done. simpl. lia.
  - by rewrite filter_cons_False.
Qed.

End JoinGrid.

(** * Time points written and read back *)

(** X4. A time point written as year, ["Q"], quarter from two integers, as
    the housing parser and the sample data write it, is read back by the
    pattern of the join to the same year and quarter when the year has four
    digits and the quarter one; with a shorter year it is not matched, and
    the join then leaves the time point out. *)
Theorem time_point_round_trip (y q : Z) :
  0 ≤ q ≤ 9 →
  (1000 ≤ y ≤ 9999 →
   match_time_point (Py.str_of_int y +:+ "Q" +:+ Py.str_of_int q)
   = Some (y, q))
  ∧ (0 ≤ y < 1000 →
     match_time_point (Py.str_of_int y +:+ "Q" +:+ Py.str_of_int q) = None).
Proof.
  intros Hq. split; intros Hy.
  - assert (H : forallb (λ y, forallb (λ q,
                  bool_decide
                    (match_time_point
                       (Py.str_of_int y +:+ "Q" +:+ Py.str_of_int q)
                     = Some (y, q))) (seqZ 0 10)) (seqZ 1000 9000) = true)
      by (vm_compute; reflexivity).
    rewrite forallb_forall in H.
    assert (Hy' : In y (seqZ 1000 9000))
      by (apply list_elem_of_In, elem_of_seqZ; lia).
    specialize (H y Hy'). rewrite forallb_forall in H.
    assert (Hq' : In q (seqZ 0 10))
      by (apply list_elem_of_In, elem_of_seqZ; lia).
    exact (proj1 (bool_decide_eq_true _) (H q Hq')).
  - assert (H : forallb (λ y, forallb (λ q,
                  bool_decide
                    (match_time_point
                       (Py.str_of_int y +:+ "Q" +:+ Py.str_of_int q)
                     = None)) (seqZ 0 10)) (seqZ 0 1000) = true)
      by (vm_compute; reflexivity).
    rewrite forallb_forall in H.
    assert (Hy' : In y (seqZ 0 1000))
      by (apply list_elem_of_In, elem_of_seqZ; lia).
    specialize (H y Hy'). rewrite forallb_forall in H.
    assert (Hq' : In q (seqZ 0 10))
      by (apply list_elem_of_In, elem_of_seqZ; lia).
    exact (proj1 (bool_decide_eq_true _) (H q Hq')).
Qed.

(** * The tabular-source parser: when it succeeds and what it stores *)

Lemma lstrip_head (s : string) :
  Py.lstrip s = ""
  ∨ ∃ c rest, Py.lstrip s = String c rest ∧ Py.isspace c = false.
Proof.
  induction s as [|c s IH]; simpl; [by left|].
  destruct (Py.isspace c) eqn:E; [done|]. right. eauto.
Qed.

Lemma rstrip_head (c : ascii) (rest : string) :
  Py.isspace c = false → ∃ kept, Py.rstrip (String c rest) = String c kept.
Proof.
  intros E. simpl. rewrite E. destruct (Py.rstrip rest); eauto.
Qed.

(** A stripped text is empty or starts with a character that is no space. *)
Lemma strip_head (s : string) :
  Py.strip s = ""
  ∨ ∃ c rest, Py.strip s = String c rest ∧ Py.isspace c = false.
Proof.
  unfold Py.strip.
  destruct (lstrip_head s) as [-> | (c & rest & -> & E)]; [by left|].
  right. destruct (rstrip_head c rest E) as [kept ->]. eauto.
Qed.

Lemma first_token_strip (s : string) :
  Py.strip s ≠ "" → ∃ tok, Py.first_token (Py.strip s) = inr tok.
Proof.
  intros Hne. destruct (strip_head s) as [? | (c & rest & Hs & E)]; [done|].
  rewrite Hs. unfold Py.first_token. simpl. rewrite E. eauto.
Qed.

Lemma build_time_points_cons (y q : string) (ys qs : list string) :
  build_time_points (y :: ys) (q :: qs)
  = if bool_decide (y = "") then build_time_points ys qs
    else if bool_decide (q = "") then build_time_points ys qs
    else tok ← Py.first_token q;
         rest ← build_time_points ys qs;
         inr ((y +:+ "Q" +:+ tok) :: rest).
Proof. reflexivity. Qed.

(** With a quarter row at least as long as the year row no index is out
    of range. *)
Lemma build_time_points_succeeds (ys qs : list string) :
  (length ys ≤ length qs)%nat →
  ∃ tps, build_time_points (Py.strip <$> ys) (Py.strip <$> qs) = inr tps
         ∧ (length tps ≤ length ys)%nat.
Proof.
  revert qs. induction ys as [|y ys IH]; intros qs Hlen.
  - exists []. done.
  - destruct qs as [|q qs]; simpl in Hlen; [lia|].
    destruct (IH qs ltac:(lia)) as (tps & Htps & Hl).
    rewrite !fmap_cons, build_time_points_cons. case_bool_decide as Hy.
    + rewrite Htps. exists tps. split; [done|simpl; lia].
    + case_bool_decide as Hq.
      * rewrite Htps. exists tps. split; [done|simpl; lia].
      * destruct (first_token_strip q Hq) as [tok ->].
        rewrite Htps. eexists. split; [reflexivity|]. simpl. lia.
Qed.

Lemma exn_bind_inr {A B} (f : A → Py.exn + B) (x : A) :
  (inr x ≫= f) = f x.
Proof. reflexivity. Qed.

Lemma tail_length {A} (l : list A) : length (tail l) = pred (length l).
Proof. by destruct l. Qed.

Section ParserFacts.

Variable py_float : string → option float.

Lemma parse_city_rows_succeeds (tps : list string)
  (rows : list (list string)) (init : CityData) :
  ∃ cd, parse_city_rows py_float tps rows init = inr cd.
Proof.
  revert init. induction rows as [|cells rows IH]; intros init; simpl;
    [eauto|].
  destruct cells as [|first [|second others]]; try apply IH.
  destruct (bool_decide (Py.strip first ≠ "")
            && bool_decide (Py.strip first ≠ AREAS_METROPOLITANAS));
    [|apply IH].
  destruct (parse_cells_never_raise py_float (second :: others))
    as (vs & -> & _).
  simpl. destruct (bool_decide (length vs = length tps)); apply IH.
Qed.

(** X5. Once the document has its two header rows at positions 6 and 7
    and the quarter row has at least as many cells as the year row, the
    body of the parser raises nothing, whatever the cells hold: it returns
    the cities with at most one time point per year cell. *)
Theorem parse_html_rows_succeeds (rows : list (list string))
  (header_row quarter_row : list string) :
  rows !! 6%nat = Some header_row → rows !! 7%nat = Some quarter_row →
  (length header_row ≤ length quarter_row)%nat →
  ∃ city_data time_points,
    parse_html_rows py_float rows = inr (city_data, time_points)
    ∧ (length time_points ≤ length header_row - 1)%nat.
Proof.
  intros H6 H7 Hlen. unfold parse_html_rows. rewrite H6, H7.
  destruct (build_time_points_succeeds (tail header_row) (tail quarter_row))
    as (tps & -> & Hl).
  { rewrite !tail_length. lia. }
  rewrite exn_bind_inr.
  destruct (parse_city_rows_succeeds tps (drop 8 rows) ∅) as [cd ->].
  rewrite exn_bind_inr.
  exists cd, tps. split; [done|]. rewrite tail_length in Hl. lia.
Qed.

(** X6. A document with fewer than eight table rows has no header rows:
    the body of the parser raises [IndexError] and the reader returns
    sample data in its place. *)
Theorem short_document_yields_sample_data (rng : Type)
  (uniform : float → float → rng → float * rng) (fs : file_system)
  (file_path : string) (rows : list (list string)) (g : rng) :
  fs !! file_path = Some (HtmlDocument rows) → (length rows < 8)%nat →
  try_read_html py_float fs file_path = inl Py.IndexError
  ∧ read_excel_html_table rng uniform py_float fs file_path g
    = inr (create_sample_data rng uniform file_path g).
Proof.
  intros Hfile Hlen.
  assert (Htry : try_read_html py_float fs file_path = inl Py.IndexError).
  { unfold try_read_html, parse_html_rows. rewrite Hfile.
    rewrite (lookup_ge_None_2 rows 7) by lia.
    by destruct (rows !! 6%nat). }
  split; [done|]. unfold read_excel_html_table. by rewrite Htry.
Qed.

Lemma dom_make_series (labels : list string) (values : list float) :
  length values = length labels →
  dom (make_series labels values) = list_to_set labels.
Proof.
  intros Hlen. unfold make_series.
  rewrite dom_list_to_map_L, fst_zip by lia. done.
Qed.

Lemma parse_city_rows_step (tps : list string) (first second : string)
  (others : list string) (rest : list (list string)) (init : CityData)
  (values : list float) :
  Py.strip first ≠ "" → Py.strip first ≠ AREAS_METROPOLITANAS →
  parse_cells py_float (second :: others) = inr values →
  parse_city_rows py_float tps ((first :: second :: others) :: rest) init
  = if bool_decide (length values = length tps)
    then parse_city_rows py_float tps rest
           (<[Py.strip first := make_series tps values]> init)
    else parse_city_rows py_float tps rest init.
Proof.
  intros He Ha Hv.
  change (parse_city_rows py_float tps ((first :: second :: others) :: rest) init)
    with (if bool_decide (Py.strip first ≠ "")
             && bool_decide (Py.strip first ≠ AREAS_METROPOLITANAS)
          then
            values ← parse_cells py_float (second :: others);
            if bool_decide (length values = length tps)
            then parse_city_rows py_float tps rest
                   (<[Py.strip first := make_series tps values]> init)
            else parse_city_rows py_float tps rest init
          else parse_city_rows py_float tps rest init).
  rewrite (bool_decide_eq_true_2 _ He), (bool_decide_eq_true_2 _ Ha), Hv.
  reflexivity.
Qed.

Lemma parse_city_rows_skip (tps : list string) (cells : list string)
  (rest : list (list string)) (init : CityData) :
  (length cells ≤ 1)%nat
  ∨ (∃ first others, cells = first :: others
       ∧ (Py.strip first = "" ∨ Py.strip first = AREAS_METROPOLITANAS)) →
  parse_city_rows py_float tps (cells :: rest) init
  = parse_city_rows py_float tps rest init.
Proof.
  intros [Hlen | (first & others & -> & Hname)].
  - destruct cells as [|first [|second others]]; try done. simpl in Hlen. lia.
  - destruct others as [|second others]; [done|].
    change (parse_city_rows py_float tps ((first :: second :: others) :: rest) init)
      with (if bool_decide (Py.strip first ≠ "")
               && bool_decide (Py.strip first ≠ AREAS_METROPOLITANAS)
            then
              values ← parse_cells py_float (second :: others);
              if bool_decide (length values = length tps)
              then parse_city_rows py_float tps rest
                     (<[Py.strip first := make_series tps values]> init)
              else parse_city_rows py_float tps rest init
            else parse_city_rows py_float tps rest init).
    destruct Hname as [Hn | Hn].
    + by rewrite (bool_decide_eq_false_2 (Py.strip first ≠ "")) by tauto.
    + rewrite (bool_decide_eq_false_2 (Py.strip first ≠ AREAS_METROPOLITANAS))
        by tauto.
      by rewrite andb_false_r.
Qed.

(** Every row either leaves the dictionary as it is or stores one series
    of the right shape under a valid name. *)
Lemma parse_city_rows_cases (tps : list string) (cells : list string)
  (rest : list (list string)) (init : CityData) :
  parse_city_rows py_float tps (cells :: rest) init
  = parse_city_rows py_float tps rest init
  ∨ ∃ first others values,
      cells = first :: others ∧ others ≠ []
      ∧ Py.strip first ≠ "" ∧ Py.strip first ≠ AREAS_METROPOLITANAS
      ∧ parse_cells py_float others = inr values
      ∧ length values = length tps
      ∧ parse_city_rows py_float tps (cells :: rest) init
        = parse_city_rows py_float tps rest
            (<[Py.strip first := make_series tps values]> init).
Proof.
  destruct cells as [|first [|second others]].
  - left. apply parse_city_rows_skip. left. simpl. lia.
  - left. apply parse_city_rows_skip. left. simpl. lia.
  - destruct (decide (Py.strip first = "")) as [He | He].
    { left. apply parse_city_rows_skip. right. eauto. }
    destruct (decide (Py.strip first = AREAS_METROPOLITANAS)) as [Ha | Ha].
    { left. apply parse_city_rows_skip. right. eauto. }
    destruct (parse_cells_never_raise py_float (second :: others))
      as (vs & Hvs & _).
    rewrite (parse_city_rows_step tps first second others rest init vs)
      by done.
    case_bool_decide as Hlen; [|by left].
    right. exists first, (second :: others), vs. done.
Qed.

Lemma parse_city_rows_shape (tps : list string) (rows : list (list string))
  (init cd : CityData) :
  (∀ c s, init !! c = Some s →
     c ≠ "" ∧ c ≠ AREAS_METROPOLITANAS ∧ dom s = list_to_set tps) →
  parse_city_rows py_float tps rows init = inr cd →
  ∀ c s, cd !! c = Some s →
    c ≠ "" ∧ c ≠ AREAS_METROPOLITANAS ∧ dom s = list_to_set tps.
Proof.
  revert init. induction rows as [|cells rows IH]; intros init Hinit.
  - simpl. by intros [= <-].
  - destruct (parse_city_rows_cases tps cells rows init)
      as [-> | (first & others & vs & _ & _ & He & Ha & _ & Hlen & ->)].
    + by apply IH.
    + apply IH. intros c s.
      destruct (decide (Py.strip first = c)) as [<- | Hne].
      * rewrite lookup_insert_eq. intros [= <-].
        by rewrite dom_make_series.
      * rewrite lookup_insert_ne by done. apply Hinit.
Qed.

Lemma parse_html_rows_inv (rows : list (list string)) (cd : CityData)
  (tps : list string) :
  parse_html_rows py_float rows = inr (cd, tps) →
  parse_city_rows py_float tps (drop 8 rows) ∅ = inr cd.
Proof.
  unfold parse_html_rows.
  destruct (rows !! 6%nat) as [h|]; [|done].
  destruct (rows !! 7%nat) as [q|]; [|done].
  destruct (build_time_points _ _) as [e | tps']; [done|].
  rewrite exn_bind_inr.
  destruct (parse_city_rows py_float tps' (drop 8 rows) ∅) as [e | cd']
    eqn:E; [done|].
  rewrite exn_bind_inr. intros [= <- <-]. exact E.
Qed.

(** X7. In what the parser returns, no city is named by the empty text or
    by the reserved aggregate label, and the series of every city has a
    value, possibly null, at each of the time points and nowhere else. *)
Theorem parsed_series_cover_time_points (rows : list (list string))
  (city_data : CityData) (time_points : list string) (c : string)
  (s : Series) :
  parse_html_rows py_float rows = inr (city_data, time_points) →
  city_data !! c = Some s →
  c ≠ "" ∧ c ≠ AREAS_METROPOLITANAS
  ∧ ∀ tp, is_Some (s !! tp) ↔ tp ∈ time_points.
Proof.
  intros Hparse%parse_html_rows_inv Hc.
  destruct (parse_city_rows_shape time_points (drop 8 rows) ∅ city_data)
    with (c := c) (s := s) as (He & Ha & Hdom); try done.
  split; [done|]. split; [done|]. intros tp.
  rewrite <- elem_of_dom, Hdom, elem_of_list_to_set. done.
Qed.

End ParserFacts.

Lemma make_series_lookup (labels : list string) (values : list float)
  (i : nat) (label : string) (v : float) :
  NoDup labels → (length labels ≤ length values)%nat →
  labels !! i = Some label → values !! i = Some v →
  make_series labels values !! label = Some v.
Proof.
  intros Hnd Hlen Hl Hv. unfold make_series.
  apply elem_of_list_to_map_1; [by rewrite fst_zip|].
  apply (list_elem_of_lookup_2 _ i).
  by rewrite lookup_zip_with, Hl, Hv.
Qed.

Section ParserValues.

Variable py_float : string → option float.

Lemma parse_cells_lookup (cells : list string) (values : list float)
  (i : nat) (cell : string) :
  parse_cells py_float cells = inr values → cells !! i = Some cell →
  ∃ v, values !! i = Some v ∧ parse_cell py_float (Py.strip cell) = inr v.
Proof.
  revert values i. induction cells as [|c0 cells IH]; intros values i;
    [done|].
  change (parse_cells py_float (c0 :: cells))
    with (v ← parse_cell py_float (Py.strip c0);
          vs ← parse_cells py_float cells; inr (v :: vs)).
  destruct (parse_cell py_float (Py.strip c0)) as [e | v0] eqn:E0; [done|].
  rewrite exn_bind_inr.
  destruct (parse_cells py_float cells) as [e | vs] eqn:Ecs; [done|].
  rewrite exn_bind_inr. intros [= <-]. destruct i as [|i]; simpl.
  - intros [= <-]. eauto.
  - intros Hi. by apply (IH vs i).
Qed.

(** Rows that do not carry the name leave its entry alone. *)
Lemma parse_city_rows_other (tps : list string) (rows : list (list string))
  (init cd : CityData) (c : string) :
  (∀ first others, (first :: others) ∈ rows → Py.strip first ≠ c) →
  parse_city_rows py_float tps rows init = inr cd →
  cd !! c = init !! c.
Proof.
  revert init. induction rows as [|cells rows IH]; intros init Hrows.
  - simpl. by intros [= <-].
  - assert (Hrest : ∀ first others,
              (first :: others) ∈ rows → Py.strip first ≠ c)
      by (intros f o Hin; apply (Hrows f o); by right).
    destruct (parse_city_rows_cases py_float tps cells rows init)
      as [-> | (first & others & vs & -> & _ & _ & _ & _ & _ & ->)].
    + by apply IH.
    + intros Hcd. rewrite (IH _ Hrest Hcd).
      apply lookup_insert_ne. apply (Hrows first others). left.
Qed.

Lemma parse_city_rows_app (tps : list string) (l1 l2 : list (list string))
  (init : CityData) :
  parse_city_rows py_float tps (l1 ++ l2) init
  = parse_city_rows py_float tps l1 init ≫= parse_city_rows py_float tps l2.
Proof.
  revert init. induction l1 as [|cells l1 IH]; intros init; [done|].
  rewrite <- app_comm_cons.
  destruct (parse_city_rows_cases py_float tps cells (l1 ++ l2) init)
    as [Hskip | (first & others & vs & Hc & Hne & He & Ha & Hvs & Hlen & Hstore)].
  - destruct (parse_city_rows_cases py_float tps cells l1 init)
      as [Hskip' | (first & others & vs & Hc & Hne & He & Ha & Hvs & Hlen & Hstore')].
    + rewrite Hskip, Hskip'. apply IH.
    + subst cells. destruct others as [|second others]; [done|].
      rewrite (parse_city_rows_step py_float tps first second others _ init vs)
        by done.
      rewrite (parse_city_rows_step py_float tps first second others _ init vs)
        by done.
      rewrite bool_decide_eq_true_2 by done. apply IH.
  - subst cells. destruct others as [|second others]; [done|].
    rewrite Hstore.
    rewrite (parse_city_rows_step py_float tps first second others l1 init vs)
      by done.
    rewrite bool_decide_eq_true_2 by done. apply IH.
Qed.

(** X8. The value the parser returns for a city at a time point is the
    parsed text of the cell in the same position of the city's row: with
    distinct time points, a row of as many data cells as there are time
    points, a valid name, and no later row under the same name, the series
    of the city holds at the i-th time point the value of the i-th cell. *)
Theorem parsed_value_is_parsed_cell (rows pre post : list (list string))
  (first : string) (cells : list string) (city_data : CityData)
  (time_points : list string) (i : nat) (tp cell : string) :
  parse_html_rows py_float rows = inr (city_data, time_points) →
  drop 8 rows = (pre ++ (first :: cells) :: post)%list →
  Py.strip first ≠ "" → Py.strip first ≠ AREAS_METROPOLITANAS →
  length cells = length time_points → NoDup time_points →
  (∀ f others, (f :: others) ∈ post → Py.strip f ≠ Py.strip first) →
  time_points !! i = Some tp → cells !! i = Some cell →
  ∃ s v,
    city_data !! Py.strip first = Some s
    ∧ s !! tp = Some v
    ∧ parse_cell py_float (Py.strip cell) = inr v.
Proof.
  intros Hparse%parse_html_rows_inv Hdrop He Ha Hlen Hnd Hpost Htp Hcell.
  rewrite Hdrop, parse_city_rows_app in Hparse.
  destruct (parse_city_rows_succeeds py_float time_points pre ∅)
    as [cd1 Hpre].
  rewrite Hpre, exn_bind_inr in Hparse.
  destruct cells as [|second others]; [done|].
  destruct (parse_cells_never_raise py_float (second :: others))
    as (vs & Hvs & Hvlen).
  rewrite (parse_city_rows_step py_float time_points first second others
             post cd1 vs) in Hparse by done.
  rewrite bool_decide_eq_true_2 in Hparse by lia.
  destruct (parse_cells_lookup _ _ _ _ Hvs Hcell) as (v & Hv & Hpc).
  exists (make_series time_points vs), v.
  rewrite (parse_city_rows_other _ _ _ _ _ Hpost Hparse), lookup_insert_eq.
  split; [done|]. split; [|done].
  apply (make_series_lookup time_points vs i); try done. lia.
Qed.

End ParserValues.

(** * Text replacement and the housing keys *)

Lemma replace_from_skip (old new p rest : string) :
  Py.replace_from old new (String.length p) (p +:+ rest)
  = Py.replace_from old new 0 rest.
Proof. induction p as [|c p IH]; simpl; [done|apply IH]. Qed.

Lemma prefix_app (p rest : string) : String.prefix p (p +:+ rest) = true.
Proof.
  induction p as [|c p IH]; simpl; [by destruct rest|].
  destruct (ascii_dec c c); [apply IH|done].
Qed.

(** An occurrence at the front is replaced and the rest goes on. *)
Lemma replace_prefix (old new rest : string) :
  old ≠ "" →
  Py.replace old new (old +:+ rest) = new +:+ Py.replace old new rest.
Proof.
  destruct old as [|c old]; [done|]. intros _. unfold Py.replace.
  change (String c old +:+ rest) with (String c (old +:+ rest)).
  change (Py.replace_from (String c old) new 0 (String c (old +:+ rest)))
    with (if String.prefix (String c old) (String c (old +:+ rest))
          then new +:+ Py.replace_from (String c old) new
                         (String.length old) (old +:+ rest)
          else String c (Py.replace_from (String c old) new 0 (old +:+ rest))).
  change (String c (old +:+ rest)) with (String c old +:+ rest).
  rewrite prefix_app. by rewrite replace_from_skip.
Qed.

(** A text without an occurrence is left as it is. *)
Lemma replace_absent (old new s : string) :
  Py.contains old s = false → Py.replace old new s = s.
Proof.
  unfold Py.replace. induction s as [|c s IH]; [done|].
  intros [Hp Hc]%orb_false_elim.
  change (Py.replace_from old new 0 (String c s))
    with (if String.prefix old (String c s)
          then new +:+ Py.replace_from old new
                         (Nat.pred (String.length old)) s
          else String c (Py.replace_from old new 0 s)).
  rewrite Hp. f_equal. by apply IH.
Qed.

Lemma housing_get_plain (housing_cost_data : CityData) (c tp : string) :
  Py.contains "Ciudad de " c = false →
  housing_get housing_cost_data c tp = metric_get housing_cost_data c tp.
Proof.
  intros Habs. unfold housing_get, metric_get.
  rewrite (replace_absent _ _ _ Habs). by destruct (housing_cost_data !! c).
Qed.

Lemma housing_get_prefixed (housing_cost_data : CityData) (rest tp : string) :
  Py.contains "Ciudad de " rest = false →
  housing_get housing_cost_data ("Ciudad de " +:+ rest) tp
  = match housing_cost_data !! rest with
    | Some s => series_get s tp
    | None => metric_get housing_cost_data ("Ciudad de " +:+ rest) tp
    end.
Proof.
  intros Habs. unfold housing_get, metric_get.
  rewrite replace_prefix, (replace_absent _ _ _ Habs) by done.
  change ("" +:+ rest) with rest.
  destruct (housing_cost_data !! rest); [done|].
  by destruct (housing_cost_data !! _).
Qed.

Section HousingKeys.

Variable set_iter : gset string → list string.
Variables employment_data salary_data population_data : CityData.
Variable housing_cost_data : CityData.
Variable time_points : list string.

(** X9. For a city whose name does not hold ["Ciudad de "], the two
    housing keys are the same and the housing index is a plain lookup of
    the name. For a city named ["Ciudad de "] followed by a rest that does
    not hold it, the first key is the rest, and the full name is tried
    only when the rest is no key. *)
Theorem housing_keys_of_plain_and_prefixed_names (r : UnifiedRecord) :
  r ∈ compile_data set_iter employment_data salary_data population_data
        housing_cost_data time_points →
  (Py.contains "Ciudad de " (city r) = false →
   housing_index r = metric_get housing_cost_data (city r) (time_point r))
  ∧ (∀ rest, city r = "Ciudad de " +:+ rest →
       Py.contains "Ciudad de " rest = false →
       housing_index r
       = match housing_cost_data !! rest with
         | Some s => series_get s (time_point r)
         | None => metric_get housing_cost_data (city r) (time_point r)
         end).
Proof.
  intros Hr. apply table_row_fields in Hr as (-> & _ & _). split.
  - apply housing_get_plain.
  - intros rest -> Habs. by apply housing_get_prefixed.
Qed.

End HousingKeys.

(** * What the housing parser stores *)

Lemma foldl_insert_other {A} (key : A → string) (val : A → Series)
  (l : list A) (init : CityData) (k : string) :
  (∀ y, y ∈ l → key y ≠ k) →
  foldl (λ result x, <[key x := val x]> result) init l !! k = init !! k.
Proof.
  revert init. induction l as [|x l IH]; intros init Hl; [done|]. simpl.
  rewrite IH by (intros y Hy; apply Hl; by right).
  apply lookup_insert_ne. apply Hl. left.
Qed.

(** A dictionary filled in a loop holds, under a key written once, the
    value written with it. *)
Lemma foldl_insert_lookup {A} `{EqDecision A} (key : A → string)
  (val : A → Series)
  (l : list A) (init : CityData) (x : A) :
  x ∈ l → (∀ y, y ∈ l → key y = key x → y = x) →
  foldl (λ result x, <[key x := val x]> result) init l !! key x
  = Some (val x).
Proof.
  revert init. induction l as [|y l IH]; intros init Hx Hinj;
    [by apply elem_of_nil in Hx|].
  simpl. destruct (decide (x ∈ l)) as [Hin | Hnin].
  - apply IH; [done|]. intros z Hz. apply Hinj. by right.
  - apply elem_of_cons in Hx as [-> | ?]; [|done].
    rewrite foldl_insert_other; [apply lookup_insert_eq|].
    intros z Hz Hk. apply Hnin.
    rewrite <- (Hinj z) at 1; [done | by right | done].
Qed.

Lemma housing_of_rows_value (data : list HousingRow) (r : HousingRow) :
  let label := λ x : HousingRow,
    Py.str_of_int (Anio x) +:+ "Q" +:+ Py.str_of_int (Trimestre x) in
  r ∈ data → String.prefix "ZM" (Global r) = true →
  (∀ x, x ∈ data → String.prefix "ZM" (Global x) = true →
        housing_city_name (Global x) = housing_city_name (Global r) →
        Global x = Global r) →
  NoDup (label <$> filter (λ x, Global x = Global r) (zm_data data)) →
  ∃ s, housing_of_rows data !! housing_city_name (Global r) = Some s
       ∧ s !! label r = Some (Indice r).
Proof.
  intros label Hr Hzm Hinj Hnd.
  assert (Hkept : ∀ x, x ∈ zm_data data
                       ↔ x ∈ data ∧ String.prefix "ZM" (Global x) = true).
  { intros x. unfold zm_data, contains_caret_ZM.
    rewrite list_elem_of_filter. tauto. }
  exists (housing_series (Global r) (zm_data data)). split.
  - unfold housing_of_rows.
    apply (foldl_insert_lookup housing_city_name
             (λ zm, housing_series zm (zm_data data))).
    + apply elem_of_unique, list_elem_of_fmap. exists r.
      split; [done|]. by apply Hkept.
    + intros zm Hin Hname. rewrite elem_of_unique in Hin.
      apply list_elem_of_fmap in Hin as (x & -> & Hx).
      apply Hkept in Hx as [Hx1 Hx2]. by apply Hinj.
  - unfold housing_series.
    set (zm_rows := filter (λ x, Global x = Global r) (zm_data data)) in *.
    assert (Hin : r ∈ zm_rows).
    { apply list_elem_of_filter. split; [done|]. by apply Hkept. }
    apply list_elem_of_lookup in Hin as [i Hi].
    apply (make_series_lookup _ _ i); try done.
    + by rewrite !length_fmap.
    + by rewrite list_lookup_fmap, Hi.
    + by rewrite list_lookup_fmap, Hi.
Qed.

(** X10. The index value of a metropolitan row is found again in the
    result of the housing parser, under the normalized name of the row's
    identifier and the label made of its year and quarter, when no other
    kept identifier has the same normalized name and the rows of the
    identifier have distinct labels. *)
Theorem housing_value_of_row (data : list HousingRow) (r : HousingRow) :
  let label := λ x : HousingRow,
    Py.str_of_int (Anio x) +:+ "Q" +:+ Py.str_of_int (Trimestre x) in
  r ∈ data → String.prefix "ZM" (Global r) = true →
  (∀ x, x ∈ data → String.prefix "ZM" (Global x) = true →
        housing_city_name (Global x) = housing_city_name (Global r) →
        Global x = Global r) →
  NoDup (label <$> filter (λ x, Global x = Global r) (zm_data data)) →
  ∃ s, housing_of_rows data !! housing_city_name (Global r) = Some s
       ∧ s !! label r = Some (Indice r).
Proof. apply housing_of_rows_value. Qed.

(** The identifier of a metropolitan area, without its marker. *)
Lemma housing_city_name_plain (name : string) :
  Py.contains "ZM " name = false →
  name ≠ VALLE_MEXICO → name ≠ "PueblaTlax" →
  housing_city_name ("ZM " +:+ name) = name.
Proof.
  intros Habs Hv Hp. unfold housing_city_name.
  rewrite replace_prefix, (replace_absent _ _ _ Habs) by done.
  change ("" +:+ name) with name.
  by rewrite (bool_decide_eq_false_2 _ Hv), (bool_decide_eq_false_2 _ Hp).
Qed.

(** X11. From the housing file to the joined table: the index value of a
    row of the area ["ZM " ++ name] is the housing index of the joined row
    of the city ["Ciudad de " ++ name] at the time point made of the year
    and the quarter of that row. The name holds neither marker and is not
    one of the two renamed areas; no other kept identifier has the same
    normalized name, and the rows of the area have distinct labels. *)
Theorem housing_value_reaches_joined_row
  (set_iter : gset string → list string)
  (employment_data salary_data population_data : CityData)
  (time_points : list string) (data : list HousingRow) (name : string)
  (hr : HousingRow) (r : UnifiedRecord) :
  let label := λ x : HousingRow,
    Py.str_of_int (Anio x) +:+ "Q" +:+ Py.str_of_int (Trimestre x) in
  Py.contains "ZM " name = false → Py.contains "Ciudad de " name = false →
  name ≠ VALLE_MEXICO → name ≠ "PueblaTlax" →
  hr ∈ data → Global hr = "ZM " +:+ name →
  (∀ x, x ∈ data → String.prefix "ZM" (Global x) = true →
        housing_city_name (Global x) = name → Global x = Global hr) →
  NoDup (label <$> filter (λ x, Global x = Global hr) (zm_data data)) →
  r ∈ compile_data set_iter employment_data salary_data population_data
        (housing_of_rows data) time_points →
  city r = "Ciudad de " +:+ name → time_point r = label hr →
  housing_index r = Indice hr.
Proof.
  intros label Hzm Hcd Hv Hp Hhr Hglobal Hinj Hnd Hr Hcity Htp.
  assert (Hname : housing_city_name (Global hr) = name)
    by (rewrite Hglobal; by apply housing_city_name_plain).
  destruct (housing_of_rows_value data hr) as (s & Hs & Hval); try done.
  { by rewrite Hglobal. }
  { intros x Hx Hpx Hnx. apply Hinj; try done. by rewrite Hnx. }
  apply table_row_fields in Hr as (-> & _ & _).
  rewrite Hcity, housing_get_prefixed by done.
  rewrite Hname in Hs. rewrite Hs, Htp. unfold series_get.
  unfold label in *. simpl in Hval. by rewrite Hval.
Qed.

(** * The order of the growth and CAGR tables *)

Lemma StronglySorted_bind {A B} (RA : relation A) (RB : relation B)
  (f : A → list B) (l : list A) :
  StronglySorted RA l →
  (∀ x, x ∈ l → StronglySorted RB (f x)) →
  (∀ x y a b, RA x y → a ∈ f x → b ∈ f y → RB a b) →
  StronglySorted RB (l ≫= f).
Proof.
  intros Hl Hin Hacross. induction Hl as [|x l Hl IH Hx]; [constructor|].
  rewrite bind_cons. apply StronglySorted_app. split.
  - intros a b Ha (y & Hb & Hy)%list_elem_of_bind.
    rewrite Forall_forall in Hx. eapply Hacross; eauto.
  - split; [apply Hin; left|].
    apply IH. intros y Hy. apply Hin. by right.
Qed.

Lemma StronglySorted_weaken {A} (R1 R2 : relation A) (l : list A) :
  (∀ x y, R1 x y → R2 x y) → StronglySorted R1 l → StronglySorted R2 l.
Proof.
  intros HR. induction 1 as [|x l Hl IH Hx]; constructor; [done|].
  eapply Forall_impl; [exact Hx|]. auto.
Qed.

Lemma StronglySorted_filter {A} (R : relation A) (P : A → Prop)
  `{∀ x, Decision (P x)} (l : list A) :
  StronglySorted R l → StronglySorted R (filter P l).
Proof.
  induction 1 as [|x l Hl IH Hx]; [constructor|].
  rewrite filter_cons. destruct (decide (P x)); [|done].
  constructor; [done|]. rewrite Forall_forall in Hx. apply Forall_forall.
  intros y [_ Hy]%list_elem_of_filter. by apply Hx.
Qed.

(** The distinct values of a list in ascending order ascend strictly. *)
Lemma unique_from_ascending (seen l : list string) :
  StronglySorted (λ a b, String.compare a b ≠ Gt) l →
  StronglySorted (λ a b, String.compare a b = Lt) (unique_from seen l).
Proof.
  intros Hl. revert seen. induction Hl as [|x l Hl IH Hx]; intros seen;
    [constructor|].
  simpl. case_bool_decide; [apply IH|].
  constructor; [apply IH|]. apply Forall_forall.
  intros y [Hy Hseen]%elem_of_unique_from.
  rewrite Forall_forall in Hx. specialize (Hx y Hy).
  rewrite not_elem_of_cons in Hseen. destruct Hseen as [Hne _].
  destruct (String.compare x y) eqn:E; try done.
  by apply String.compare_eq_iff in E.
Qed.

Lemma group_keys_cities_ascending (data : list UnifiedRecord) :
  StronglySorted (λ a b : string * Z, String.compare a.1 b.1 ≠ Gt)
    (group_keys data).
Proof.
  assert (Hs : StronglySorted key_le (group_keys data))
    by apply (StronglySorted_merge_sort key_le).
  induction Hs as [|k ks Hs IH Hk]; constructor; [done|].
  eapply Forall_impl; [exact Hk|]. intros k'. unfold key_le, key_leb.
  by destruct (String.compare k.1 k'.1).
Qed.

Lemma growth_loop_elem (c : string) (rows : list YearlyAggregate)
  (g : GrowthRecord) :
  g ∈ growth_loop c rows →
  ∃ i prev curr,
    rows !! i = Some prev ∧ rows !! S i = Some curr
    ∧ g = growth_record c prev curr.
Proof.
  induction rows as [|r0 rest IH]; [by intros ?%elem_of_nil|].
  destruct rest as [|r1 rest']; [by intros ?%elem_of_nil|].
  change (growth_loop c (r0 :: r1 :: rest'))
    with (growth_record c r0 r1 :: growth_loop c (r1 :: rest')).
  intros [-> | Hg]%elem_of_cons.
  - by exists 0%nat, r0, r1.
  - destruct (IH Hg) as (i & prev & curr & Hp & Hc & ->).
    by exists (S i), prev, curr.
Qed.

(** The records of one city ascend strictly by year. *)
Lemma growth_loop_ascending (c : string) (rows : list YearlyAggregate) :
  StronglySorted (λ a b, y_year a < y_year b) rows →
  StronglySorted (λ a b, g_city a = g_city b ∧ g_year a < g_year b)
    (growth_loop c rows).
Proof.
  induction 1 as [|r0 rest Hrest IH Hr0]; [constructor|].
  destruct rest as [|r1 rest']; [constructor|].
  change (growth_loop c (r0 :: r1 :: rest'))
    with (growth_record c r0 r1 :: growth_loop c (r1 :: rest')).
  constructor; [done|]. apply Forall_forall. intros g Hg.
  destruct (growth_loop_elem _ _ _ Hg) as (i & prev & curr & _ & Hc & ->).
  simpl. split; [done|].
  apply StronglySorted_inv in Hrest as [_ Hr1].
  rewrite Forall_forall in Hr1. apply Hr1. simpl in Hc.
  by apply (list_elem_of_lookup_2 _ i).
Qed.

Section GrowthTable.

Variable mean : list float → float.

Lemma yearly_cities_ascending (data : list UnifiedRecord) :
  StronglySorted (λ a b, String.compare a b = Lt)
    (unique (y_city <$> yearly_data mean data)).
Proof.
  apply unique_from_ascending. unfold yearly_data.
  rewrite <- list_fmap_compose.
  apply (StronglySorted_fmap _
           (λ a b : string * Z, String.compare a.1 b.1 ≠ Gt)); [done|].
  apply group_keys_cities_ascending.
Qed.

(** X12. Every growth record belongs to a year of its city that is not
    the city's first: the data hold an earlier year of the same city. Its
    five averages are the means of the quarterly rows of its own city and
    year. *)
Theorem growth_record_means (data : list UnifiedRecord)
  (out : list GrowthRecord) (g : GrowthRecord) :
  calculate_growth_rates mean data = inr out → g ∈ out →
  let rows := group_rows (g_city g, g_year g) data in
  (∃ u, u ∈ data ∧ city u = g_city g ∧ year u < g_year g)
  ∧ rows ≠ []
  ∧ avg_employment_rate g = mean (employment_rate <$> rows)
  ∧ avg_monthly_salary g = mean (monthly_salary <$> rows)
  ∧ avg_real_wage g = mean (real_wage <$> rows)
  ∧ avg_population g = mean (population <$> rows)
  ∧ avg_housing_index g = mean (housing_index <$> rows).
Proof.
  intros Hout Hg.
  assert (Hf : g ∈ filter (λ x, g_city x = g_city g) out)
    by (by apply list_elem_of_filter).
  rewrite (growth_records_of_city mean data out (g_city g) Hout) in Hf.
  set (c := g_city g) in *.
  destruct (growth_loop_elem _ _ _ Hf) as (i & prev & curr & Hp & Hc & Hgr).
  pose proof (Sorted_lookup_adjacent _ _ i prev curr
                (city_yearly_ascending mean data c) Hp Hc) as Hlt.
  simpl in Hlt.
  assert (Hrow : ∀ r, r ∈ city_yearly (yearly_data mean data) c →
            ∃ u, u ∈ data ∧ city u = c
                 ∧ r = yearly_row mean data (c, year u)).
  { intros r Hr. rewrite city_yearly_Permutation in Hr.
    apply list_elem_of_filter in Hr as [Hrc Hr].
    by apply (elem_of_yearly_data_city mean data c r). }
  destruct (Hrow prev (list_elem_of_lookup_2 _ _ _ Hp))
    as (u' & Hu' & Hcu' & Hprev).
  destruct (Hrow curr (list_elem_of_lookup_2 _ _ _ Hc))
    as (u & Hu & Hcu & Hcurr).
  assert (Hyear : g_year g = year u) by (rewrite Hgr, Hcurr; done).
  rewrite Hprev, Hcurr in Hlt. simpl in Hlt.
  intros rows. unfold rows. rewrite Hyear. split.
  - exists u'. done.
  - split.
    + intros Hnil. assert (Hin : u ∈ group_rows (c, year u) data).
      { apply list_elem_of_filter. split; [|done].
        unfold group_key. by rewrite Hcu. }
      rewrite Hnil in Hin. by apply elem_of_nil in Hin.
    + rewrite Hgr, Hcurr. done.
Qed.

(** X13. The growth table is sorted by city, names compared code point by
    code point, and by year within a city, strictly: no city and year
    occurs twice. *)
Theorem growth_table_sorted (data : list UnifiedRecord)
  (out : list GrowthRecord) :
  calculate_growth_rates mean data = inr out →
  StronglySorted
    (λ a b, String.compare (g_city a) (g_city b) = Lt
            ∨ (g_city a = g_city b ∧ g_year a < g_year b)) out.
Proof.
  unfold calculate_growth_rates. destruct data as [|r0 data']; [done|].
  intros [= <-].
  apply (StronglySorted_bind (λ a b, String.compare a b = Lt)).
  - apply yearly_cities_ascending.
  - intros c _.
    assert (Htr : Transitive (λ a b : YearlyAggregate, y_year a < y_year b))
      by (intros x y z; lia).
    pose proof (Sorted_StronglySorted _ _
                  (city_yearly_ascending mean (r0 :: data') c)) as Hs.
    apply (growth_loop_ascending c) in Hs.
    eapply StronglySorted_weaken; [|exact Hs]. intros a b Hab. by right.
  - intros x y a b Hxy Ha%growth_loop_city Hb%growth_loop_city.
    left. by rewrite Ha, Hb.
Qed.

End GrowthTable.

Section CagrTable.

Variable mean : list float → float.
Variable pow : float → float → float.

(** What a record of the CAGR table comes from. *)
Lemma cagr_record_origin (data : list UnifiedRecord) (start_y end_y : Z)
  (out : list CAGRRecord) (g : CAGRRecord) :
  calculate_cagr mean pow data start_y end_y = inr out → g ∈ out →
  ∃ first_year last_year,
    start_y ≤ cy_year first_year ∧ cy_year first_year < cy_year last_year
    ∧ cy_year last_year ≤ end_y
    ∧ start_year g = start_y ∧ end_year g = end_y
    ∧ years g = cagr_years start_y end_y.
Proof.
  intros Hout Hg.
  assert (Hf : g ∈ filter (λ x, c_city x = c_city g) out)
    by (by apply list_elem_of_filter).
  rewrite (cagr_records_of_city mean pow data start_y end_y out (c_city g)
             Hout) in Hf.
  set (rows := cagr_city_data
                 (filter_window start_y end_y (cagr_yearly_data mean data))
                 (c_city g)) in *.
  unfold cagr_city in Hf. case_bool_decide as Hlen;
    [|by apply elem_of_nil in Hf].
  destruct (head rows) as [fy|] eqn:Hhead; [|by apply elem_of_nil in Hf].
  destruct (last rows) as [ly|] eqn:Hlast; [|by apply elem_of_nil in Hf].
  apply list_elem_of_singleton in Hf as ->. simpl.
  assert (Hwin : ∀ r, r ∈ rows → start_y ≤ cy_year r ≤ end_y).
  { intros r Hr. unfold rows in Hr.
    rewrite cagr_city_data_Permutation in Hr.
    apply list_elem_of_filter in Hr as [_ Hr].
    apply list_elem_of_filter in Hr as [Hr _]. done. }
  pose proof (Hwin fy (head_Some_elem_of _ _ Hhead)).
  pose proof (Hwin ly (last_Some_elem_of _ _ Hlast)).
  pose proof (Sorted_strict_head_last cy_year rows fy ly
                (cagr_city_data_ascending mean data start_y end_y (c_city g))
                Hlen Hhead Hlast).
  exists fy, ly. repeat split; try done; lia.
Qed.

(** X14. Every record of the CAGR table belongs to a window that ends
    after it starts, and its number of years is the length of the window:
    the replacement value 1 of line 362 never reaches the table. With a
    window that does not end after it starts the table is empty. *)
Theorem cagr_window_is_proper (data : list UnifiedRecord) (start_y end_y : Z)
  (out : list CAGRRecord) :
  calculate_cagr mean pow data start_y end_y = inr out →
  (∀ g, g ∈ out →
     start_y < end_y ∧ start_year g = start_y ∧ end_year g = end_y
     ∧ years g = end_y - start_y)
  ∧ (end_y ≤ start_y → out = []).
Proof.
  intros Hout.
  assert (Hall : ∀ g, g ∈ out →
            start_y < end_y ∧ start_year g = start_y ∧ end_year g = end_y
            ∧ years g = end_y - start_y).
  { intros g Hg.
    destruct (cagr_record_origin data start_y end_y out g Hout Hg)
      as (fy & ly & H1 & H2 & H3 & Hs & He & Hy).
    rewrite cagr_years_max in Hy. repeat split; try done; lia. }
  split; [done|]. intros Hle. destruct out as [|g out']; [done|].
  destruct (Hall g) as [Hlt _]; [left|lia].
Qed.

Lemma cagr_cities_ascending (data : list UnifiedRecord) (start_y end_y : Z) :
  StronglySorted (λ a b, String.compare a b = Lt)
    (unique (cy_city <$>
               filter_window start_y end_y (cagr_yearly_data mean data))).
Proof.
  apply unique_from_ascending.
  apply (StronglySorted_fmap _
           (λ a b, String.compare (cy_city a) (cy_city b) ≠ Gt)); [done|].
  apply StronglySorted_filter. unfold cagr_yearly_data.
  apply (StronglySorted_fmap _
           (λ a b : string * Z, String.compare a.1 b.1 ≠ Gt)); [done|].
  apply group_keys_cities_ascending.
Qed.

(** X15. The CAGR table is sorted by city, names compared code point by
    code point, strictly: every city has at most one record. *)
Theorem cagr_table_sorted (data : list UnifiedRecord) (start_y end_y : Z)
  (out : list CAGRRecord) :
  calculate_cagr mean pow data start_y end_y = inr out →
  StronglySorted (λ a b, String.compare (c_city a) (c_city b) = Lt) out.
Proof.
  unfold calculate_cagr. destruct data as [|r0 data']; [done|].
  intros [= <-].
  apply (StronglySorted_bind (λ a b, String.compare a b = Lt)).
  - apply cagr_cities_ascending.
  - intros c _. unfold cagr_city.
    destruct (bool_decide _); [|constructor].
    destruct (head _); [|constructor].
    destruct (last _); [|constructor].
    repeat constructor.
  - intros x y a b Hxy Ha%cagr_city_city Hb%cagr_city_city.
    by rewrite Ha, Hb.
Qed.

End CagrTable.

(** * A product by 160 is no NaN *)

Section RoundingFacts.

Lemma shr_1_nonneg (mrs : shr_record) :
  0 ≤ shr_m mrs → 0 ≤ shr_m (shr_1 mrs).
Proof.
  destruct mrs as [m r s]. simpl.
  destruct m as [|p|p]; [done| |lia]. by destruct p.
Qed.

Lemma iter_shr_1_nonneg (p : positive) (mrs : shr_record) :
  0 ≤ shr_m mrs → 0 ≤ shr_m (SpecFloat.iter_pos shr_1 p mrs).
Proof.
  revert mrs. induction p as [p IH|p IH|]; intros mrs Hm; simpl.
  - apply IH, IH. by apply shr_1_nonneg.
  - by apply IH, IH.
  - by apply shr_1_nonneg.
Qed.

Lemma shr_fexp_nonneg (m e : Z) (l : location) :
  0 ≤ m → 0 ≤ shr_m (shr_fexp prec emax m e l).1.
Proof.
  intros Hm. unfold shr_fexp, shr.
  assert (H0 : 0 ≤ shr_m (shr_record_of_loc m l))
    by (destruct l as [|[]]; done).
  destruct (_ - e)%Z; simpl; try done. by apply iter_shr_1_nonneg.
Qed.

Lemma round_nearest_even_nonneg (m : Z) (l : location) :
  0 ≤ m → 0 ≤ round_nearest_even m l.
Proof.
  intros Hm. unfold round_nearest_even.
  destruct l as [|[]]; try done; [destruct (Z.even m)|]; lia.
Qed.

(** Rounding a mantissa that is not negative gives no NaN. *)
Lemma binary_round_aux_not_nan (sx : bool) (mx ex : Z) (lx : location) :
  0 ≤ mx → binary_round_aux prec emax sx mx ex lx ≠ S754_nan.
Proof.
  intros Hm. unfold binary_round_aux.
  pose proof (shr_fexp_nonneg mx ex lx Hm) as H1.
  destruct (shr_fexp prec emax mx ex lx) as [mrs' e']. simpl in H1.
  pose proof (shr_fexp_nonneg _ e' loc_Exact
                (round_nearest_even_nonneg _ (loc_of_shr_record mrs') H1))
    as H2.
  destruct (shr_fexp prec emax _ e' loc_Exact) as [mrs'' e'']. simpl in H2.
  destruct (shr_m mrs'') as [|p|p]; [done| |lia].
  by destruct (e'' <=? emax - prec)%Z.
Qed.

Lemma mul_160_nan (x : float) :
  PrimFloat.is_nan (x * 160)%float = PrimFloat.is_nan x.
Proof.
  destruct (PrimFloat.is_nan x) eqn:Hx.
  - apply is_nan_Prim2SF. rewrite FloatAxioms.mul_spec.
    apply is_nan_Prim2SF in Hx. by rewrite Hx.
  - destruct (PrimFloat.is_nan (x * 160)%float) eqn:Hp; [|done].
    apply is_nan_Prim2SF in Hp. rewrite FloatAxioms.mul_spec in Hp.
    change (Prim2SF 160%float)
      with (S754_finite false 5629499534213120 (-45)) in Hp.
    unfold SF64mul, SFmul in Hp.
    destruct (Prim2SF x) as [sx|sx| |sx mx ex] eqn:E; try done.
    + apply is_nan_Prim2SF in E. congruence.
    + by apply binary_round_aux_not_nan in Hp.
Qed.

End RoundingFacts.

(** X16. In every row of the joined table the monthly salary is null
    exactly when the hourly salary is null: the product by 160 of a value
    that is present is present, be it an infinity. *)
Theorem monthly_salary_null_iff_hourly_null
  (set_iter : gset string → list string)
  (employment_data salary_data population_data housing_cost_data : CityData)
  (time_points : list string) (r : UnifiedRecord) :
  r ∈ compile_data set_iter employment_data salary_data population_data
        housing_cost_data time_points →
  Py.isnan (monthly_salary r) = Py.isnan (hourly_salary r).
Proof.
  intros Hr. apply table_row_fields in Hr as (_ & -> & _).
  unfold monthly_salary_of, Py.isnan.
  destruct (PrimFloat.is_nan (hourly_salary r)) eqn:E; [done|].
  simpl. by rewrite mul_160_nan.
Qed.

(** * The shape of the sample data *)

Section SampleShape.

Variable rng : Type.
Variable uniform : float → float → rng → float * rng.

Lemma length_draw_values (value : Z → float → float) (low high : float)
  (indices : list Z) (g : rng) :
  length (draw_values rng uniform value low high indices g).1
  = length indices.
Proof.
  revert g. induction indices as [|i rest IH]; intros g; [done|]. simpl.
  destruct (uniform low high g) as [u g1]. specialize (IH g1).
  destruct (draw_values rng uniform value low high rest g1) as [vs g2].
  simpl in *. by rewrite IH.
Qed.

Lemma sample_cities_loop_shape (values : string → rng → list float * rng)
  (cities : list string) (init : CityData) (g : rng) :
  (∀ c g, length (values c g).1 = length sample_time_points) →
  (∀ c s, init !! c = Some s → dom s = list_to_set sample_time_points) →
  ∀ c s, (sample_cities_loop rng values cities init g).1 !! c = Some s →
         dom s = list_to_set sample_time_points.
Proof.
  intros Hvalues. revert init g.
  induction cities as [|c0 rest IH]; intros init g Hinit; [exact Hinit|].
  simpl. pose proof (Hvalues c0 g) as Hlen.
  destruct (values c0 g) as [vs g1]. simpl in Hlen. apply IH.
  intros c s. destruct (decide (c0 = c)) as [-> | Hne].
  - rewrite lookup_insert_eq. intros [= <-]. by apply dom_make_series.
  - rewrite lookup_insert_ne by done. apply Hinit.
Qed.

Lemma length_sample_values (file_type c : string) (g : rng) :
  length (sample_values rng uniform file_type c g).1
  = length sample_time_points.
Proof.
  unfold sample_values.
  destruct (Py.contains "Employment" file_type);
    [|destruct (Py.contains "salary" file_type);
      [|destruct (Py.contains "Population" file_type)]];
    rewrite length_draw_values; reflexivity.
Qed.

(** X17. Whatever the generator draws and whatever the file name, the
    sample data of the tabular reader hold the five sample cities, and the
    sample housing data the five bare names, each with a value at every
    one of the 24 sample time points and nowhere else. *)
Theorem sample_series_cover_sample_time_points (file_type c : string)
  (g : rng) :
  (∀ s, (create_sample_data rng uniform file_type g).1.1 !! c = Some s →
        c ∈ sample_cities
        ∧ ∀ tp, is_Some (s !! tp) ↔ tp ∈ sample_time_points)
  ∧ (∀ s, (sample_housing rng uniform g).1 !! c = Some s →
          c ∈ sample_housing_cities
          ∧ ∀ tp, is_Some (s !! tp) ↔ tp ∈ sample_time_points).
Proof.
  split; intros s Hs.
  - unfold create_sample_data in Hs.
    pose proof (dom_sample_cities_loop rng
                  (sample_values rng uniform file_type) sample_cities ∅ g)
      as Hdom.
    pose proof (sample_cities_loop_shape
                  (sample_values rng uniform file_type) sample_cities ∅ g
                  (length_sample_values file_type)) as Hshape.
    destruct (sample_cities_loop rng (sample_values rng uniform file_type)
                sample_cities ∅ g) as [cd g1].
    cbn [fst] in *. split.
    + assert (Hc : c ∈ dom cd) by (apply elem_of_dom; eauto).
      rewrite Hdom, dom_empty_L in Hc. set_solver.
    + intros tp. rewrite <- elem_of_dom.
      rewrite (Hshape ltac:(done) c s Hs), elem_of_list_to_set. done.
  - unfold sample_housing in Hs.
    set (values := λ c : string,
           draw_values rng uniform
             (trend_value (housing_base c) 0.05%float
                (Z.of_nat (length sample_time_points)))
             (-0.01)%float 0.01%float
             (seqZ 0 (Z.of_nat (length sample_time_points)))) in *.
    pose proof (dom_sample_cities_loop rng values sample_housing_cities ∅ g)
      as Hdom.
    assert (Hvalues : ∀ c g, length (values c g).1
                             = length sample_time_points)
      by (intros c' g'; unfold values; by rewrite length_draw_values).
    pose proof (sample_cities_loop_shape values sample_housing_cities ∅ g
                  Hvalues) as Hshape.
    destruct (sample_cities_loop rng values sample_housing_cities ∅ g)
      as [cd g1].
    cbn [fst] in *. split.
    + assert (Hc : c ∈ dom cd) by (apply elem_of_dom; eauto).
      rewrite Hdom, dom_empty_L in Hc. set_solver.
    + intros tp. rewrite <- elem_of_dom.
      rewrite (Hshape ltac:(done) c s Hs), elem_of_list_to_set. done.
Qed.

End SampleShape.

(** * The canonical time points in the pipeline *)

Section PipelineFacts.

Variable rng : Type.
Variable uniform : float → float → rng → float * rng.
Variable py_float : string → option float.
Variable set_iter : gset string → list string.
Variable mean : list float → float.
Variable pow : float → float → float.

Lemma try_read_html_shape (fs : file_system) (file_path : string)
  (cd : CityData) (tps : list string) (c : string) (s : Series) :
  try_read_html py_float fs file_path = inr (cd, tps) →
  cd !! c = Some s → dom s = list_to_set tps.
Proof.
  unfold try_read_html. intros Hread Hc.
  assert (Hrows : ∃ rows, parse_html_rows py_float rows = inr (cd, tps)).
  { destruct (fs !! file_path) as [[rows|rows]|]; [eauto|eauto|done]. }
  destruct Hrows as [rows Hrows%parse_html_rows_inv].
  by destruct (parse_city_rows_shape py_float tps (drop 8 rows) ∅ cd)
    with (c := c) (s := s) as (_ & _ & Hdom).
Qed.

(** The unified table of [main] is the join of what the four readers
    return, over the time points of the employment reader only. *)
Lemma main_body_table (fs : file_system) (g : rng)
  (u : list UnifiedRecord) (gr : list GrowthRecord) (cg : list CAGRRecord) :
  main_body rng uniform py_float set_iter mean pow fs g = inr (u, gr, cg) →
  ∃ emp tps g1 sal tps2 g2 pop tps3 g3 hous g4,
    read_excel_html_table rng uniform py_float fs EMPLOYMENT_RATE_FILE g
    = inr (emp, tps, g1)
    ∧ read_excel_html_table rng uniform py_float fs HOURLY_SALARY_FILE g1
      = inr (sal, tps2, g2)
    ∧ read_excel_html_table rng uniform py_float fs POPULATION_FILE g2
      = inr (pop, tps3, g3)
    ∧ read_housing_cost rng uniform fs HOUSING_COST_FILE g3 = inr (hous, g4)
    ∧ u = compile_data set_iter emp sal pop hous tps.
Proof.
  unfold main_body.
  destruct (read_excel_html_table rng uniform py_float fs
              EMPLOYMENT_RATE_FILE g) as [e | [[emp tps] g1]] eqn:He; [done|].
  rewrite exn_bind_inr. cbv beta iota.
  destruct (read_excel_html_table rng uniform py_float fs
              HOURLY_SALARY_FILE g1) as [e | [[sal tps2] g2]] eqn:Hs; [done|].
  rewrite exn_bind_inr. cbv beta iota.
  destruct (read_excel_html_table rng uniform py_float fs
              POPULATION_FILE g2) as [e | [[pop tps3] g3]] eqn:Hp; [done|].
  rewrite exn_bind_inr. cbv beta iota.
  destruct (read_housing_cost rng uniform fs HOUSING_COST_FILE g3)
    as [e | [hous g4]] eqn:Hh; [done|].
  rewrite exn_bind_inr. cbv beta iota zeta.
  destruct (calculate_growth_rates mean _) as [e | gr']; [done|].
  rewrite exn_bind_inr.
  destruct (calculate_cagr mean pow _ 2015 2020) as [e | cg']; [done|].
  rewrite exn_bind_inr. intros [= <- <- <-].
  by exists emp, tps, g1, sal, tps2, g2, pop, tps3, g3, hous, g4.
Qed.

(** X18. In [main], on sources with distinct labels, the time points of
    the employment file are the only ones: every row of the unified table
    stands at one of them, and at an employment time point that the salary
    file does not have, the hourly salary, the monthly salary and the real
    wage of every city are null. *)
Theorem salary_outside_its_time_points_is_null (fs : file_system) (g : rng)
  (emp sal : CityData) (tps tps_s : list string)
  (u : list UnifiedRecord) (gr : list GrowthRecord) (cg : list CAGRRecord)
  (r : UnifiedRecord) :
  try_read_html py_float fs EMPLOYMENT_RATE_FILE = inr (emp, tps) →
  try_read_html py_float fs HOURLY_SALARY_FILE = inr (sal, tps_s) →
  labels_distinct py_float fs →
  main rng uniform py_float set_iter mean pow fs g = Some (u, gr, cg) →
  r ∈ u →
  time_point r ∈ tps
  ∧ (time_point r ∉ tps_s →
     Py.isnan (hourly_salary r) = true
     ∧ Py.isnan (monthly_salary r) = true
     ∧ Py.isnan (real_wage r) = true).
Proof.
  intros Hemp Hsal _ Hmain Hr. unfold main in Hmain.
  destruct (main_body rng uniform py_float set_iter mean pow fs g)
    as [e | tables] eqn:Hbody; [done|].
  injection Hmain as ->.
  apply main_body_table in Hbody
    as (emp' & tps' & g1 & sal' & tps2 & g2 & pop & tps3 & g3 & hous & g4
        & He & Hs & _ & _ & ->).
  unfold read_excel_html_table in He, Hs. rewrite Hemp in He.
  rewrite Hsal in Hs. injection He as <- <- <-. injection Hs as <- <- <-.
  apply elem_of_compile_data in Hr as (c & tp & _ & _ & _ & Htp & Hrow).
  apply compile_row_fields in Hrow
    as (_ & -> & _ & _ & Hh & _ & _ & Hm & Hw).
  split; [done|]. intros Hout.
  assert (Hnull : hourly_salary r = Py.nan).
  { rewrite Hh. unfold metric_get, series_get.
    destruct (sal !! c) as [s|] eqn:Hc; simpl; [|done].
    assert (Hnone : s !! tp = None).
    { apply not_elem_of_dom.
      rewrite (try_read_html_shape _ _ _ _ _ _ Hsal Hc).
      by rewrite elem_of_list_to_set. }
    by rewrite Hnone. }
  rewrite Hw, Hm, Hnull. done.
Qed.

End PipelineFacts.

(** * The further properties on the example data *)

Lemma joined_rows_in_grid_witness :
  JoinExample.leon_q1 ∈ JoinExample.table
  ∧ city JoinExample.leon_q1 ∈ dom JoinExample.employment
  ∧ time_point JoinExample.leon_q1 ∈ JoinExample.quarters
  ∧ match_time_point (time_point JoinExample.leon_q1) = Some (2015, 1).
Proof.
  assert (Hin : JoinExample.leon_q1 ∈ JoinExample.table)
    by (vm_compute; left).
  destruct (joined_rows_in_grid elements (λ s, reflexivity _)
              JoinExample.employment JoinExample.salary ∅
              JoinExample.housing JoinExample.quarters
              JoinExample.leon_q1 Hin)
    as (_ & _ & _ & Htp & Hm & _).
  refine (conj Hin (conj _ (conj Htp Hm))).
  apply elem_of_dom. eexists. vm_compute. reflexivity.
Defined.

Lemma joined_grid_complete_witness :
  ∃ r, r ∈ JoinExample.table ∧ city r = "Tepic" ∧ time_point r = "2015Q3".
Proof.
  apply (joined_grid_complete elements (λ s, reflexivity _)
           JoinExample.employment JoinExample.salary ∅
           JoinExample.housing JoinExample.quarters "Tepic" "2015Q3").
  - unfold all_cities. rewrite !elem_of_union, !elem_of_dom.
    left. left. eexists. vm_compute. reflexivity.
  - discriminate.
  - discriminate.
  - do 2 right. left.
  - eexists. vm_compute. reflexivity.
Defined.

Lemma joined_grid_size_witness :
  length JoinExample.table = 6%nat.
Proof.
  unfold JoinExample.table.
  rewrite (joined_grid_size elements (λ s, reflexivity _)).
  vm_compute. reflexivity.
Defined.

Lemma time_point_round_trip_witness :
  match_time_point (Py.str_of_int 2015 +:+ "Q" +:+ Py.str_of_int 1)
  = Some (2015, 1)
  ∧ match_time_point (Py.str_of_int 999 +:+ "Q" +:+ Py.str_of_int 1) = None.
Proof.
  split.
  - apply (time_point_round_trip 2015 1); lia.
  - apply (time_point_round_trip 999 1); lia.
Defined.

Lemma parse_html_rows_succeeds_witness :
  ∃ city_data time_points,
    parse_html_rows Instances.decimal_float PipelineExample.employment_doc
    = inr (city_data, time_points)
    ∧ (length time_points ≤ 4)%nat.
Proof.
  apply (parse_html_rows_succeeds Instances.decimal_float
           PipelineExample.employment_doc
           ["Periodo"; "2015"; "2015"; "2016"; "2016"]
           [""; "1 trim"; "2 trim"; "1 trim"; "2 trim"]).
  - reflexivity.
  - reflexivity.
  - simpl. lia.
Defined.

Lemma short_document_yields_sample_data_witness :
  let fs : file_system := {[ POPULATION_FILE := HtmlDocument [["Periodo"]] ]} in
  try_read_html Instances.decimal_float fs POPULATION_FILE
  = inl Py.IndexError
  ∧ read_excel_html_table unit Instances.midpoint Instances.decimal_float
      fs POPULATION_FILE tt
    = inr (create_sample_data unit Instances.midpoint POPULATION_FILE tt).
Proof.
  intros fs.
  apply (short_document_yields_sample_data Instances.decimal_float unit
           Instances.midpoint fs POPULATION_FILE [["Periodo"]] tt).
  - vm_compute. reflexivity.
  - simpl. lia.
Defined.

Lemma parsed_series_cover_time_points_witness :
  ∃ city_data time_points s,
    parse_html_rows Instances.decimal_float PipelineExample.employment_doc
    = inr (city_data, time_points)
    ∧ city_data !! "Tepic" = Some s
    ∧ is_Some (s !! "2015Q2")
    ∧ ¬ is_Some (s !! "2017Q1").
Proof.
  pose (p := match parse_html_rows Instances.decimal_float
                     PipelineExample.employment_doc with
             | inr p => p
             | inl _ => (∅, [])
             end).
  pose (s := default ∅ (p.1 !! "Tepic")).
  assert (Hp : parse_html_rows Instances.decimal_float
                 PipelineExample.employment_doc = inr (p.1, p.2))
    by (vm_compute; reflexivity).
  assert (Hs : p.1 !! "Tepic" = Some s) by (vm_compute; reflexivity).
  assert (Htps : p.2 = ["2015Q1"; "2015Q2"; "2016Q1"; "2016Q2"])
    by (vm_compute; reflexivity).
  destruct (parsed_series_cover_time_points Instances.decimal_float
              PipelineExample.employment_doc p.1 p.2 "Tepic" s Hp Hs)
    as (_ & _ & Hcover).
  exists p.1, p.2, s. refine (conj Hp (conj Hs (conj _ _))).
  - apply Hcover. rewrite Htps. right. left.
  - rewrite Hcover, Htps.
    apply (bool_decide_unpack (_ ∉ _)). vm_compute. exact I.
Defined.

Lemma parsed_value_is_parsed_cell_witness :
  ∃ city_data time_points s,
    parse_html_rows Instances.decimal_float PipelineExample.employment_doc
    = inr (city_data, time_points)
    ∧ city_data !! "Tepic" = Some s
    ∧ s !! "2016Q1" = Some 56.1%float.
Proof.
  pose (p := match parse_html_rows Instances.decimal_float
                     PipelineExample.employment_doc with
             | inr p => p
             | inl _ => (∅, [])
             end).
  assert (Hp : parse_html_rows Instances.decimal_float
                 PipelineExample.employment_doc = inr (p.1, p.2))
    by (vm_compute; reflexivity).
  assert (Htps : p.2 = ["2015Q1"; "2015Q2"; "2016Q1"; "2016Q2"])
    by (vm_compute; reflexivity).
  assert (Hcell : parse_cell Instances.decimal_float (Py.strip "56,1")
                  = inr 56.1%float) by (vm_compute; reflexivity).
  destruct (parsed_value_is_parsed_cell Instances.decimal_float
              PipelineExample.employment_doc
              [[AREAS_METROPOLITANAS; ""; ""; ""; ""];
               ["Ciudad de Monterrey"; "60,1"; "60,5"; "61,0"; "61,2"]]
              [] "Tepic" ["55,0"; "No aplica"; "56,1"; "56,3"]
              p.1 p.2 2%nat "2016Q1" "56,1" Hp)
    as (s & v & Hs & Hv & Hvalue).
  - reflexivity.
  - vm_compute. discriminate.
  - vm_compute. discriminate.
  - rewrite Htps. reflexivity.
  - rewrite Htps. apply (bool_decide_unpack (NoDup _)). vm_compute. exact I.
  - intros f others Hin. by apply elem_of_nil in Hin.
  - rewrite Htps. reflexivity.
  - reflexivity.
  - exists p.1, p.2, s. refine (conj Hp (conj Hs _)).
    rewrite Hv. rewrite Hcell in Hvalue. by injection Hvalue as <-.
Defined.

Lemma housing_keys_of_plain_and_prefixed_names_witness :
  JoinExample.leon_q1 ∈ JoinExample.table
  ∧ JoinExample.tepic_q1 ∈ JoinExample.table
  ∧ housing_index JoinExample.leon_q1
    = match JoinExample.housing !! "Leon" with
      | Some s => series_get s "2015Q1"
      | None => metric_get JoinExample.housing "Ciudad de Leon" "2015Q1"
      end
  ∧ housing_index JoinExample.tepic_q1
    = metric_get JoinExample.housing "Tepic" "2015Q1".
Proof.
  assert (H1 : JoinExample.leon_q1 ∈ JoinExample.table)
    by (vm_compute; left).
  assert (H2 : JoinExample.tepic_q1 ∈ JoinExample.table)
    by (vm_compute; do 3 right; left).
  refine (conj H1 (conj H2 (conj _ _))).
  - apply (proj2 (housing_keys_of_plain_and_prefixed_names _ _ _ _ _ _ _ H1)
             "Leon"); reflexivity.
  - apply (proj1 (housing_keys_of_plain_and_prefixed_names _ _ _ _ _ _ _ H2)).
    reflexivity.
Defined.

Lemma housing_value_of_row_witness :
  ∃ s, housing_of_rows HousingExample.rows !! "Monterrey" = Some s
       ∧ s !! "2015Q2" = Some 102%float.
Proof.
  apply (housing_value_of_row HousingExample.rows
           (mkHousingRow "ZM Monterrey" 2015 2 102)).
  - do 3 right. left.
  - reflexivity.
  - intros x Hx Hzm Hname.
    repeat (apply elem_of_cons in Hx as [-> | Hx]);
      [reflexivity | vm_compute in Hname; discriminate Hname
      | vm_compute in Hzm; discriminate Hzm | reflexivity
      | by apply elem_of_nil in Hx].
  - vm_compute. repeat constructor; set_solver.
Defined.

Lemma housing_value_reaches_joined_row_witness :
  let employment : CityData :=
    {[ "Ciudad de Monterrey" := ({[ "2015Q1" := 60%float ]} : Series) ]} in
  let r :=
    mkUnified "Ciudad de Monterrey" "2015Q1" 2015 1 60 Py.nan Py.nan 101.5
      Py.nan Py.nan in
  r ∈ compile_data elements employment ∅ ∅
        (housing_of_rows HousingExample.rows) ["2015Q1"]
  ∧ housing_index r = 101.5%float.
Proof.
  intros employment r.
  assert (Hin : r ∈ compile_data elements employment ∅ ∅
                      (housing_of_rows HousingExample.rows) ["2015Q1"])
    by (vm_compute; left).
  split; [exact Hin|].
  assert (Hinj : ∀ x, x ∈ HousingExample.rows →
            String.prefix "ZM" (Global x) = true →
            housing_city_name (Global x) = "Monterrey" →
            Global x = "ZM Monterrey").
  { intros x Hx Hzm Hname. unfold HousingExample.rows in Hx.
    repeat (apply elem_of_cons in Hx as [-> | Hx]).
    - reflexivity.
    - vm_compute in Hname. discriminate Hname.
    - vm_compute in Hzm. discriminate Hzm.
    - reflexivity.
    - by apply elem_of_nil in Hx. }
  assert (Hnd : NoDup
            ((λ x : HousingRow,
                Py.str_of_int (Anio x) +:+ "Q" +:+ Py.str_of_int (Trimestre x))
             <$> filter (λ x, Global x = "ZM Monterrey")
                   (zm_data HousingExample.rows)))
    by (apply (bool_decide_unpack (NoDup _)); vm_compute; exact I).
  pose proof (housing_value_reaches_joined_row elements employment ∅ ∅
                ["2015Q1"] HousingExample.rows "Monterrey"
                (mkHousingRow "ZM Monterrey" 2015 1 101.5) r) as Hvalue.
  cbv zeta in Hvalue. apply Hvalue.
  - reflexivity.
  - reflexivity.
  - vm_compute. discriminate.
  - discriminate.
  - left.
  - reflexivity.
  - exact Hinj.
  - exact Hnd.
  - exact Hin.
  - reflexivity.
  - reflexivity.
Defined.

Lemma growth_record_means_witness :
  ∃ g, g ∈ GrowthExample.growth
       ∧ g_city g = "Monterrey" ∧ g_year g = 2016
       ∧ avg_population g
         = Instances.skipna_mean
             (population <$> group_rows ("Monterrey", 2016) GrowthExample.table)
       ∧ avg_population g = 4100000%float.
Proof.
  assert (H1 : calculate_growth_rates Instances.skipna_mean GrowthExample.table
               = inr GrowthExample.growth) by (vm_compute; reflexivity).
  assert (Hg : ∃ g rest, GrowthExample.growth = g :: rest
                         ∧ g_city g = "Monterrey" ∧ g_year g = 2016
                         ∧ avg_population g = 4100000%float)
    by (do 2 eexists; vm_compute; repeat split; reflexivity).
  destruct Hg as (g & rest & Heq & Hc & Hy & Hv).
  assert (Hin : g ∈ GrowthExample.growth) by (rewrite Heq; left).
  pose proof (growth_record_means Instances.skipna_mean GrowthExample.table
                GrowthExample.growth g H1 Hin) as Hm.
  cbv zeta in Hm. rewrite Hc, Hy in Hm.
  destruct Hm as (_ & _ & _ & _ & _ & Hpop & _).
  exists g. refine (conj Hin (conj Hc (conj Hy (conj Hpop Hv)))).
Defined.

Lemma growth_table_sorted_witness :
  calculate_growth_rates Instances.skipna_mean GrowthExample.table
  = inr GrowthExample.growth
  ∧ StronglySorted
      (λ a b, String.compare (g_city a) (g_city b) = Lt
              ∨ (g_city a = g_city b ∧ g_year a < g_year b))
      GrowthExample.growth.
Proof.
  assert (H1 : calculate_growth_rates Instances.skipna_mean GrowthExample.table
               = inr GrowthExample.growth) by (vm_compute; reflexivity).
  split; [exact H1|].
  exact (growth_table_sorted Instances.skipna_mean GrowthExample.table
           GrowthExample.growth H1).
Defined.

Lemma cagr_window_is_proper_witness :
  ∃ out g,
    calculate_cagr Instances.skipna_mean Instances.sqrt_pow
      GrowthExample.table 2014 2016 = inr out
    ∧ g ∈ out ∧ start_year g = 2014 ∧ end_year g = 2016 ∧ years g = 2
    ∧ calculate_cagr Instances.skipna_mean Instances.sqrt_pow
        GrowthExample.table 2016 2014 = inr [].
Proof.
  pose (out := match calculate_cagr Instances.skipna_mean Instances.sqrt_pow
                       GrowthExample.table 2014 2016
               with inr records => records | inl _ => [] end).
  assert (H : calculate_cagr Instances.skipna_mean Instances.sqrt_pow
                GrowthExample.table 2014 2016 = inr out)
    by (vm_compute; reflexivity).
  assert (H' : ∃ out', calculate_cagr Instances.skipna_mean
                         Instances.sqrt_pow GrowthExample.table 2016 2014
                       = inr out')
    by (eexists; vm_compute; reflexivity).
  destruct H' as [out' H'].
  assert (Hg : ∃ g rest, out = g :: rest)
    by (do 2 eexists; vm_compute; reflexivity).
  destruct Hg as (g & rest & Heq).
  assert (Hin : g ∈ out) by (rewrite Heq; left).
  destruct (cagr_window_is_proper _ _ _ _ _ _ H) as [Hall _].
  destruct (cagr_window_is_proper _ _ _ _ _ _ H') as [_ Hnil].
  destruct (Hall g Hin) as (_ & Hs & He & Hy).
  exists out, g.
  refine (conj H (conj Hin (conj Hs (conj He (conj Hy _))))).
  rewrite H'. f_equal. apply Hnil. lia.
Defined.

Lemma cagr_table_sorted_witness :
  ∃ out,
    calculate_cagr Instances.skipna_mean Instances.sqrt_pow
      GrowthExample.table 2014 2016 = inr out
    ∧ length out = 3%nat
    ∧ StronglySorted (λ a b, String.compare (c_city a) (c_city b) = Lt) out.
Proof.
  pose (out := match calculate_cagr Instances.skipna_mean Instances.sqrt_pow
                       GrowthExample.table 2014 2016
               with inr records => records | inl _ => [] end).
  assert (H : calculate_cagr Instances.skipna_mean Instances.sqrt_pow
                GrowthExample.table 2014 2016 = inr out)
    by (vm_compute; reflexivity).
  exists out. refine (conj H (conj _ _)).
  - vm_compute. reflexivity.
  - exact (cagr_table_sorted _ _ _ _ _ _ H).
Defined.

Lemma monthly_salary_null_iff_hourly_null_witness :
  JoinExample.leon_q3 ∈ JoinExample.table
  ∧ JoinExample.tepic_q1 ∈ JoinExample.table
  ∧ Py.isnan (monthly_salary JoinExample.leon_q3)
    = Py.isnan (hourly_salary JoinExample.leon_q3)
  ∧ Py.isnan (monthly_salary JoinExample.tepic_q1)
    = Py.isnan (hourly_salary JoinExample.tepic_q1).
Proof.
  assert (H1 : JoinExample.leon_q3 ∈ JoinExample.table)
    by (vm_compute; do 2 right; left).
  assert (H2 : JoinExample.tepic_q1 ∈ JoinExample.table)
    by (vm_compute; do 3 right; left).
  refine (conj H1 (conj H2 (conj _ _))).
  - exact (monthly_salary_null_iff_hourly_null _ _ _ _ _ _ _ H1).
  - exact (monthly_salary_null_iff_hourly_null _ _ _ _ _ _ _ H2).
Defined.

Lemma salary_gap_files_labels_distinct :
  labels_distinct Instances.decimal_float SalaryGapExample.files.
Proof.
  assert (Hq : ∀ file_path l cd tps,
            match try_read_html Instances.decimal_float SalaryGapExample.files
                    file_path with
            | inr (_, t) => t
            | inl _ => []
            end = l →
            NoDup l →
            try_read_html Instances.decimal_float SalaryGapExample.files
              file_path = inr (cd, tps) →
            NoDup tps).
  { intros file_path l cd tps Ht Hnd Hread. rewrite Hread in Ht.
    by rewrite Ht. }
  assert (H4 : NoDup ["2015Q1"; "2015Q2"; "2016Q1"; "2016Q2"])
    by (apply (bool_decide_unpack (NoDup _)); vm_compute; exact I).
  assert (H1 : NoDup ["2015Q1"])
    by (apply (bool_decide_unpack (NoDup _)); vm_compute; exact I).
  refine (conj _ (conj _ (conj _ _))).
  - intros cd tps. apply (Hq _ _ cd tps) with (2 := H4).
    vm_compute. reflexivity.
  - intros cd tps. apply (Hq _ _ cd tps) with (2 := H1).
    vm_compute. reflexivity.
  - intros cd tps. apply (Hq _ _ cd tps) with (2 := H4).
    vm_compute. reflexivity.
  - intros rows zm Hfile.
    assert (Hrows : SalaryGapExample.files !! HOUSING_COST_FILE
                    = Some (CsvTable PipelineExample.housing_rows))
      by (vm_compute; reflexivity).
    rewrite Hrows in Hfile. injection Hfile as <-.
    apply NoDup_fmap_filter.
    apply (bool_decide_unpack (NoDup _)). vm_compute. exact I.
Qed.

Lemma salary_outside_its_time_points_is_null_witness :
  ∃ u gr cg r,
    main unit Instances.midpoint Instances.decimal_float elements
      Instances.skipna_mean Instances.sqrt_pow SalaryGapExample.files tt
    = Some (u, gr, cg)
    ∧ r ∈ u
    ∧ city r = "Ciudad de Monterrey" ∧ time_point r = "2015Q2"
    ∧ Py.isnan (hourly_salary r) = true
    ∧ Py.isnan (monthly_salary r) = true
    ∧ Py.isnan (real_wage r) = true.
Proof.
  pose (e := match try_read_html Instances.decimal_float
                     SalaryGapExample.files EMPLOYMENT_RATE_FILE with
             | inr p => p
             | inl _ => (∅, [])
             end).
  pose (s := match try_read_html Instances.decimal_float
                     SalaryGapExample.files HOURLY_SALARY_FILE with
             | inr p => p
             | inl _ => (∅, [])
             end).
  pose (t := match main unit Instances.midpoint Instances.decimal_float
                     elements Instances.skipna_mean Instances.sqrt_pow
                     SalaryGapExample.files tt with
             | Some t => t
             | None => ([], [], [])
             end).
  pose (r := mkUnified "Ciudad de Monterrey" "2015Q2" 2015 2 60.5 Py.nan
               4000000 101 Py.nan Py.nan).
  assert (He : try_read_html Instances.decimal_float SalaryGapExample.files
                 EMPLOYMENT_RATE_FILE = inr (e.1, e.2))
    by (vm_compute; reflexivity).
  assert (Hs : try_read_html Instances.decimal_float SalaryGapExample.files
                 HOURLY_SALARY_FILE = inr (s.1, s.2))
    by (vm_compute; reflexivity).
  assert (Htps : s.2 = ["2015Q1"]) by (vm_compute; reflexivity).
  assert (Hmain : main unit Instances.midpoint Instances.decimal_float
                    elements Instances.skipna_mean Instances.sqrt_pow
                    SalaryGapExample.files tt = Some (t.1.1, t.1.2, t.2))
    by (vm_compute; reflexivity).
  assert (Hr : r ∈ t.1.1).
  { apply (list_elem_of_lookup_2 _ 1%nat). vm_compute. reflexivity. }
  destruct (salary_outside_its_time_points_is_null unit Instances.midpoint
              Instances.decimal_float elements Instances.skipna_mean
              Instances.sqrt_pow SalaryGapExample.files tt e.1 s.1 e.2 s.2
              t.1.1 t.1.2 t.2 r He Hs salary_gap_files_labels_distinct
              Hmain Hr) as [_ Hnull].
  destruct Hnull as (H1 & H2 & H3).
  { rewrite Htps. apply (bool_decide_unpack (_ ∉ _)). vm_compute. exact I. }
  exists t.1.1, t.1.2, t.2, r.
  refine (conj Hmain (conj Hr (conj eq_refl (conj eq_refl
            (conj H1 (conj H2 H3)))))).
Defined.
